(** * Ticker search: a shallow embedding of [ticker_search.py]

    The program downloads the NASDAQ Trader symbol directory (a text file
    with one [|]-separated row per listing), parses it into a list of
    [(symbol, name)] records, keeps a one-day cache of that list on disk and
    filters the list against the text typed in a search box.

    Strings are [string]s over [ascii]; the directory file is plain ASCII
    and the string operations below follow Python's [str] methods on code
    points below 128 (characters above that range are left alone by the case
    mappings and are neither spaces nor line breaks).  Errors raised by the
    code are values of [result]; the file system, the clock and the network
    are fields of an explicit environment. *)

From Stdlib Require Import List String Ascii Bool Arith ZArith Lia.
From Stdlib Require Import Sorting.Permutation Sorting.Sorted.
Import ListNotations.

Local Open Scope string_scope.
Local Open Scope list_scope.
Local Open Scope nat_scope.

(** ** Python string operations *)

Module PyStr.

Definition code (c : ascii) : nat := nat_of_ascii c.

(** [str.isspace] on one character: TAB, LF, VT, FF, CR, FS, GS, RS, US
    and the blank. *)
Definition isspace (c : ascii) : bool :=
  let n := code c in
  ((9 <=? n) && (n <=? 13)) || ((28 <=? n) && (n <=? 31)) || (n =? 32).

(** The line boundaries of [str.splitlines]: LF, VT, FF, CR, FS, GS, RS. *)
Definition islinebreak (c : ascii) : bool :=
  let n := code c in
  ((10 <=? n) && (n <=? 13)) || ((28 <=? n) && (n <=? 30)).

Definition lower_char (c : ascii) : ascii :=
  let n := code c in
  if (65 <=? n) && (n <=? 90) then ascii_of_nat (n + 32) else c.

Definition upper_char (c : ascii) : ascii :=
  let n := code c in
  if (97 <=? n) && (n <=? 122) then ascii_of_nat (n - 32) else c.

Fixpoint lower (s : string) : string :=
  match s with
  | EmptyString => EmptyString
  | String c s' => String (lower_char c) (lower s')
  end.

Fixpoint upper (s : string) : string :=
  match s with
  | EmptyString => EmptyString
  | String c s' => String (upper_char c) (upper s')
  end.

Fixpoint lstrip (s : string) : string :=
  match s with
  | EmptyString => EmptyString
  | String c s' => if isspace c then lstrip s' else s
  end.

Fixpoint rstrip (s : string) : string :=
  match s with
  | EmptyString => EmptyString
  | String c s' =>
      match rstrip s' with
      | EmptyString => if isspace c then EmptyString else String c EmptyString
      | r => String c r
      end
  end.

(** [s.strip()] *)
Definition strip (s : string) : string := rstrip (lstrip s).

(** [s.split(sep)] for a one-character separator: never the empty list. *)
Fixpoint split (sep : ascii) (s : string) : list string :=
  match s with
  | EmptyString => [EmptyString]
  | String c s' =>
      if Ascii.eqb c sep then EmptyString :: split sep s'
      else match split sep s' with
           | h :: t => String c h :: t
           | [] => [String c EmptyString]
           end
  end.

(** [s.splitlines()]: [cur] is the line read so far, [after_cr] tells that
    the previous character was a carriage return, so that CR LF counts as
    one boundary.  A last line is produced only when it is not empty. *)
Fixpoint splitlines_from (cur : string) (after_cr : bool) (s : string)
  : list string :=
  match s with
  | EmptyString =>
      match cur with EmptyString => [] | _ => [cur] end
  | String c s' =>
      if after_cr && (code c =? 10) then splitlines_from EmptyString false s'
      else if islinebreak c
           then cur :: splitlines_from EmptyString (code c =? 13) s'
           else splitlines_from (cur ++ String c EmptyString) false s'
  end.

Definition splitlines (s : string) : list string :=
  splitlines_from EmptyString false s.

(** The line feed, as a string. *)
Definition LF : string := String (ascii_of_nat 10) EmptyString.

(** [s.startswith(q)] *)
Definition startswith (q s : string) : bool := prefix q s.

(** [q in s] *)
Fixpoint contains (q s : string) : bool :=
  prefix q s ||
  match s with
  | EmptyString => false
  | String _ s' => contains q s'
  end.

(** [parts.index(x)]: [None] stands for the [ValueError]. *)
Fixpoint index (x : string) (parts : list string) : option nat :=
  match parts with
  | [] => None
  | p :: ps =>
      if String.eqb p x then Some 0
      else option_map S (index x ps)
  end.

(** [x in parts] *)
Definition mem (x : string) (parts : list string) : bool :=
  existsb (fun p => String.eqb p x) parts.

(** [parts[i]] for [i >= 0]: [None] stands for the [IndexError]. *)
Definition item (parts : list string) (i : nat) : option string :=
  nth_error parts i.

End PyStr.

(** ** Python's [sorted] and [list.sort] with a key

    Both are stable: records with equal keys keep their order.  A stable
    sort has one possible result, which the insertion sort below computes:
    a record is put in front of the first record whose key is not smaller
    than its own. *)

Section Sorting.

Context {A K : Type}.
Variable key : A -> K.
Variable leb : K -> K -> bool.

Fixpoint insert_by (x : A) (l : list A) : list A :=
  match l with
  | [] => [x]
  | y :: l' =>
      if leb (key x) (key y) then x :: l else y :: insert_by x l'
  end.

Fixpoint sorted (l : list A) : list A :=
  match l with
  | [] => []
  | x :: l' => insert_by x (sorted l')
  end.

(** The order the result is in. *)
Definition key_le (a b : A) : Prop := leb (key a) (key b) = true.

(** The records whose key is equivalent to [k]. *)
Definition same_key (k : K) (a : A) : bool :=
  leb (key a) k && leb k (key a).

End Sorting.

(** ** Records and results *)

(** A ticker record: [(symbol, name)]. *)
Definition ticker : Type := string * string.

Inductive error : Type :=
| FetchFailed      (* ValueError "Failed to fetch NASDAQ symbol file: ..." *)
| EmptyFile        (* ValueError "NASDAQ symbol file is empty" *)
| NoTickers        (* ValueError "No tickers parsed from NASDAQ symbol file." *)
| IndexError.      (* a subscript out of range; nothing catches it *)

(** The outcome of a call: a value, or the exception that leaves it. *)
Inductive result (A : Type) : Type :=
| Ok (a : A)
| Raise (e : error).

Arguments Ok {A} a.
Arguments Raise {A} e.

(** ** The parser (the body of [get_stock_list] after the download) *)

Module Parser.

(** The columns found in the header: symbol, name and, when there is one,
    the test-issue column. *)
Definition columns : Type := nat * nat * option nat.

(** The [try] block over the header; [None] is the [ValueError] of
    [parts.index]. *)
Definition header_lookup (parts : list string) : option columns :=
  match PyStr.index "Symbol" parts with
  | None => None
  | Some idx_symbol =>
      match PyStr.index "Security Name" parts with
      | None => None
      | Some idx_name =>
          if PyStr.mem "Test Issue" parts
          then match PyStr.index "Test Issue" parts with
               | Some idx_test => Some (idx_symbol, idx_name, Some idx_test)
               | None => None
               end
          else Some (idx_symbol, idx_name, None)
      end
  end.

(** The [except ValueError] branch. *)
Definition fixed_columns : columns := (1, 2, Some 7).

Definition locate_columns (header : string) : columns :=
  let parts := PyStr.split "|" header in
  match header_lookup parts with
  | Some c => c
  | None => fixed_columns
  end.

(** What one turn of the loop over the data rows does. *)
Inductive row_outcome : Type :=
| Skip                    (* [continue], or an empty symbol *)
| Append (r : ticker)     (* [out.append((symbol, name))] *)
| RowRaises.              (* a subscript of [cols] out of range *)

(** The condition of the second [if]: [and] stops at the first false
    operand, so [cols[idx_test]] is read only when the index is in range.
    [None] is the [IndexError] of that subscript. *)
Definition is_test_issue (idx_test : option nat) (cols : list string)
  : option bool :=
  match idx_test with
  | Some t =>
      if t <? List.length cols then
        match PyStr.item cols t with
        | Some v => Some (String.eqb (PyStr.upper (PyStr.strip v)) "Y")
        | None => None
        end
      else Some false
  | None => Some false
  end.

(** The body of the loop; [(cols[i] or "")] is [cols[i]], a string. *)
Definition parse_row (c : columns) (line : string) : row_outcome :=
  let '(idx_symbol, idx_name, idx_test) := c in
  let cols := PyStr.split "|" line in
  if List.length cols <=? Nat.max idx_symbol idx_name then Skip
  else
    match is_test_issue idx_test cols with
    | None => RowRaises
    | Some true => Skip
    | Some false =>
        match PyStr.item cols idx_symbol, PyStr.item cols idx_name with
        | Some sym, Some nam =>
            let symbol := PyStr.upper (PyStr.strip sym) in
            let name := PyStr.strip nam in
            match symbol with
            | EmptyString => Skip
            | _ => Append (symbol, name)
            end
        | _, _ => RowRaises
        end
    end.

(** The loop: [out] grows by one record per accepted row, and an exception
    in a turn ends it. *)
Definition parse_rows (c : columns) (rows : list string)
  : result (list ticker) :=
  fold_left
    (fun acc line =>
       match acc with
       | Raise e => Raise e
       | Ok out =>
           match parse_row c line with
           | Skip => Ok out
           | Append r => Ok (out ++ [r])
           | RowRaises => Raise IndexError
           end
       end)
    rows (Ok []).

(** [out.sort(key=lambda x: (x[0],))]: one-element tuples compare as their
    element does. *)
Definition sort_by_symbol (out : list ticker) : list ticker :=
  sorted fst String.leb out.

(** From the downloaded text to the list, or to the error raised. *)
Definition parse (raw : string) : result (list ticker) :=
  match PyStr.splitlines (PyStr.strip raw) with
  | [] => Raise EmptyFile
  | header :: rows =>
      match parse_rows (locate_columns header) rows with
      | Raise e => Raise e
      | Ok out =>
          match sort_by_symbol out with
          | [] => Raise NoTickers
          | sorted_out => Ok sorted_out
          end
      end
  end.

End Parser.

(** ** Ranking and the list box *)

Definition get_priority (s n query : string) : nat :=
  let sl := PyStr.lower s in
  let nl := PyStr.lower n in
  if String.eqb sl query then 0
  else if PyStr.startswith query sl then 1
  else if PyStr.contains query sl then 2
  else if PyStr.contains query nl then 3
  else 4.

Module Search.

(** The two widgets [update] works on: the text of the entry box and the
    rows of the list box. *)
Record gui : Type := mkGui {
  entry_var : string;
  my_list : list string
}.

(** [f"{s} - {n}" if n else s] *)
Definition label (x : ticker) : string :=
  let '(s, n) := x in
  match n with
  | EmptyString => s
  | _ => s ++ " - " ++ n
  end.

(** The condition of the list comprehension. *)
Definition is_match (query : string) (x : ticker) : bool :=
  let '(s, n) := x in
  PyStr.contains query (PyStr.lower s) || PyStr.contains query (PyStr.lower n).

(** The sort key [(get_priority(x[0], x[1], query), x[0].lower())]. *)
Definition rank_key (query : string) (x : ticker) : nat * string :=
  (get_priority (fst x) (snd x) query, PyStr.lower (fst x)).

(** [a <= b] on pairs of a number and a string, as Python compares tuples:
    by the first components unless they are equal. *)
Definition pair_leb (a b : nat * string) : bool :=
  (fst a <? fst b) || ((fst a =? fst b) && String.leb (snd a) (snd b)).

(** The records [update] walks over, for the lowercased text [query]. *)
Definition shown (stock_list : list ticker) (query : string) : list ticker :=
  match query with
  | EmptyString => firstn 100 stock_list
  | _ =>
      let matches := filter (is_match query) stock_list in
      let sorted_matches := sorted (rank_key query) pair_leb matches in
      firstn 100 sorted_matches
  end.

(** [my_list.insert(tk.END, label)] for each record in turn. *)
Definition insert_all (rows : list string) (xs : list ticker) : list string :=
  fold_left (fun rows x => rows ++ [label x]) xs rows.

Definition update (stock_list : list ticker) (g : gui) : gui :=
  let cleared : list string := [] in
  let query := PyStr.lower (entry_var g) in
  {| entry_var := entry_var g;
     my_list := insert_all cleared (shown stock_list query) |}.

End Search.

(** ** The cache file, the clock and the network *)

Module World.

(** What opening and unpickling the cache file gives: the stored list, or
    [None] when [open], [pickle.load] or the [len] of the loaded value
    raises.  The directory of the script exists before the run, so
    [os.makedirs(script_dir, exist_ok=True)] changes nothing. *)
Record file : Type := mkFile {
  mtime : Z;
  content : option (list ticker)
}.

(** How the write at the end of a caching run goes: it succeeds, [open]
    raises and the file stays as it was, or [pickle.dump] raises and leaves
    a truncated file. *)
Inductive write_outcome : Type := Written | OpenFails | DumpFails.

Record env : Type := mkEnv {
  now : Z;                      (* seconds since the epoch *)
  utc_offset : Z;               (* of the local time zone, in seconds *)
  cache_file : option file;     (* [None]: no [tickers_cache.pkl] *)
  network : option string;      (* [None]: [urlopen] or [read] raises *)
  on_write : write_outcome
}.

(** The accesses a run makes, in order. *)
Inductive event : Type :=
| CacheExists | CacheMtime | CacheRead | Fetch | CacheWrite.

Record run : Type := mkRun {
  events : list event;
  disk : option file;
  returned : result (list ticker)
}.

(** [datetime.fromtimestamp(t).date()] as a day number. *)
Definition date_of (w : env) (t : Z) : Z := ((t + utc_offset w) / 86400)%Z.

(** [date.today()] *)
Definition today (w : env) : Z := date_of w (now w).

(** The file after [open(cache_file, "wb")] and [pickle.dump(out, f)]. *)
Definition write_cache (w : env) (out : list ticker) : option file :=
  match on_write w with
  | Written => Some {| mtime := now w; content := Some out |}
  | OpenFails => cache_file w
  | DumpFails => Some {| mtime := now w; content := None |}
  end.

(** The first [if]: the events of the attempt and the list loaded, if one
    was. *)
Definition try_cache (use_cache : bool) (w : env)
  : list event * option (list ticker) :=
  if use_cache then
    match cache_file w with
    | None => ([CacheExists], None)
    | Some f =>
        if (date_of w (mtime f) =? today w)%Z then
          ([CacheExists; CacheMtime; CacheRead], content f)
        else ([CacheExists; CacheMtime], None)
    end
  else ([], None).

(** From "Fetching ticker list from NASDAQ Trader..." to the end. *)
Definition fetch_and_store (use_cache : bool) (w : env) (before : list event)
  : run :=
  match network w with
  | None =>
      {| events := before ++ [Fetch]; disk := cache_file w;
         returned := Raise FetchFailed |}
  | Some raw =>
      match Parser.parse raw with
      | Raise e =>
          {| events := before ++ [Fetch]; disk := cache_file w;
             returned := Raise e |}
      | Ok out =>
          if use_cache then
            {| events := before ++ [Fetch; CacheWrite];
               disk := write_cache w out;
               returned := Ok out |}
          else
            {| events := before ++ [Fetch]; disk := cache_file w;
               returned := Ok out |}
      end
  end.

Definition get_stock_list (use_cache : bool) (w : env) : run :=
  match try_cache use_cache w with
  | (seen, Some stock_list) =>
      {| events := seen; disk := cache_file w; returned := Ok stock_list |}
  | (seen, None) => fetch_and_store use_cache w seen
  end.

(** The command line: [stock_search(use_cache=not args.no_cache)] starts by
    calling [get_stock_list] with the same argument. *)
Definition main (no_cache : bool) (w : env) : run :=
  get_stock_list (negb no_cache) w.

(** Successive runs of the program on one machine: each starts from the
    cache file the previous one left, under its own flag, clock, network
    and write conditions. *)
Record step : Type := mkStep {
  step_use_cache : bool;
  step_now : Z;
  step_utc_offset : Z;
  step_network : option string;
  step_on_write : write_outcome
}.

Definition env_of (d : option file) (s : step) : env :=
  {| now := step_now s; utc_offset := step_utc_offset s; cache_file := d;
     network := step_network s; on_write := step_on_write s |}.

Fixpoint history (d : option file) (steps : list step) : list run :=
  match steps with
  | [] => []
  | s :: rest =>
      let r := get_stock_list (step_use_cache s) (env_of d s) in
      r :: history (disk r) rest
  end.

End World.

(** ** The vocabulary of the specification *)

Module Spec.

(** Every record of a list has a symbol. *)
Definition symbols_nonempty (l : list ticker) : Prop :=
  Forall (fun x => fst x <> EmptyString) l.

(** The cache file, when it can be loaded, holds such a list. *)
Definition cache_well_formed (d : option World.file) : Prop :=
  forall f l, d = Some f -> World.content f = Some l -> symbols_nonempty l.

(** "Sorted ascending by the pair (priority rank, symbol)": the order of
    that pair, the symbol taken as it is stored. *)
Definition rank_then_symbol (query : string) (a b : ticker) : Prop :=
  Search.pair_leb (get_priority (fst a) (snd a) query, fst a)
                  (get_priority (fst b) (snd b) query, fst b) = true.

(** The order [update] sorts by: the symbol is compared in lower case. *)
Definition rank_then_lower_symbol (query : string) (a b : ticker) : Prop :=
  key_le (Search.rank_key query) Search.pair_leb a b.

(** Ascending symbols. *)
Definition symbol_le (a b : ticker) : Prop := String.leb (fst a) (fst b) = true.

(** The cells of a row under the symbol and name columns, the first
    stripped and uppercased, the second stripped. *)
Definition record_of (c : Parser.columns) (line : string) : ticker :=
  let '(idx_symbol, idx_name, _) := c in
  let cols := PyStr.split "|" line in
  (PyStr.upper (PyStr.strip (nth idx_symbol cols EmptyString)),
   PyStr.strip (nth idx_name cols EmptyString)).

(** A row whose test-issue cell is not "Y". *)
Definition non_test_issue (c : Parser.columns) (line : string) : bool :=
  let '(_, _, idx_test) := c in
  match Parser.is_test_issue idx_test (PyStr.split "|" line) with
  | Some true => false
  | _ => true
  end.

(** "Exactly the non-test-issue rows, as (symbol, name) pairs with symbols
    uppercased, sorted by symbol ascending." *)
Definition non_test_records (c : Parser.columns) (rows : list string)
  : list ticker :=
  Parser.sort_by_symbol (map (record_of c) (filter (non_test_issue c) rows)).

(** A row the loop keeps: long enough for both columns, not a test issue,
    and with a symbol left after stripping. *)
Definition accepted (c : Parser.columns) (line : string) : bool :=
  let '(idx_symbol, idx_name, _) := c in
  let cols := PyStr.split "|" line in
  (Nat.max idx_symbol idx_name <? List.length cols)
  && non_test_issue c line
  && negb (String.eqb (PyStr.strip (nth idx_symbol cols EmptyString)) "").

(** Looking a column up by name fails: one of the three names is not a
    cell of the header. *)
Definition lookup_fails (parts : list string) : Prop :=
  PyStr.index "Symbol" parts = None
  \/ PyStr.index "Security Name" parts = None
  \/ PyStr.index "Test Issue" parts = None.

End Spec.

(** ** The picker window (the handlers of [stock_search]) *)

Module Picker.

(** [s.split(sep)] for a separator of several characters: the parts between
    the occurrences of [sep], found from left to right.  [cur] is the part
    read so far and [skip] the number of characters of a found separator
    still to pass over. *)
Fixpoint split_str_from (sep cur : string) (skip : nat) (s : string)
  : list string :=
  match s with
  | EmptyString => [cur]
  | String c s' =>
      match skip with
      | S k => split_str_from sep cur k s'
      | O =>
          if prefix sep s
          then cur :: split_str_from sep EmptyString (String.length sep - 1) s'
          else split_str_from sep (cur ++ String c EmptyString) 0 s'
      end
  end.

Definition split_str (sep s : string) : list string :=
  split_str_from sep EmptyString 0 s.

(** [selected.split(" - ")[0]]; [split] gives at least one part. *)
Definition symbol_of_row (selected : string) : string :=
  hd EmptyString (split_str " - " selected).

(** A string without a blank. *)
Fixpoint no_blank (s : string) : bool :=
  match s with
  | EmptyString => true
  | String c s' => negb (Ascii.eqb c " ") && no_blank s'
  end.

(** The window: the entry box and the list box of [Search.gui], the row
    selected in the list box ([my_list.curselection()], empty or one row),
    the cell [selected_ticker[0]], and whether [root.destroy()] was
    called. *)
Record window : Type := mkWindow {
  widgets : Search.gui;
  curselection : option nat;
  selected_ticker : option string;
  destroyed : bool
}.

(** The window [stock_search] builds: nothing typed, nothing listed. *)
Definition init : window :=
  {| widgets := Search.mkGui EmptyString [];
     curselection := None;
     selected_ticker := None;
     destroyed := false |}.

(** [my_list.get(i)]; Tk gives the empty string out of range. *)
Definition get (w : window) (i : nat) : string :=
  nth i (Search.my_list (widgets w)) EmptyString.

(** [entry_var.set(text)] *)
Definition set_entry (w : window) (text : string) : window :=
  {| widgets := Search.mkGui text (Search.my_list (widgets w));
     curselection := curselection w;
     selected_ticker := selected_ticker w;
     destroyed := destroyed w |}.

(** [update()]: [my_list.delete(0, tk.END)] removes the rows and with them
    the selection. *)
Definition update (stock_list : list ticker) (w : window) : window :=
  {| widgets := Search.update stock_list (widgets w);
     curselection := None;
     selected_ticker := selected_ticker w;
     destroyed := destroyed w |}.

(** [fillout(e)]: [clicked] is what [my_list.nearest(e.y)] gives, -1 for an
    empty list box, or [None] when the [try] block raises. *)
Definition fillout (clicked : option Z) (w : window) : window :=
  match clicked with
  | Some clicked_index =>
      if (0 <=? clicked_index)%Z then
        let i := Z.to_nat clicked_index in
        let selected := get w i in
        let symbol := symbol_of_row selected in
        {| widgets := Search.mkGui symbol (Search.my_list (widgets w));
           curselection := Some i;
           selected_ticker := selected_ticker w;
           destroyed := destroyed w |}
      else w
  | None =>
      match curselection w with
      | Some i => set_entry w (symbol_of_row (get w i))
      | None => w
      end
  end.

(** [select_ticker()] *)
Definition select_ticker (w : window) : window :=
  let symbol :=
    match curselection w with
    | Some i => PyStr.upper (PyStr.strip (symbol_of_row (get w i)))
    | None => PyStr.upper (PyStr.strip (Search.entry_var (widgets w)))
    end in
  match symbol with
  | EmptyString => w
  | _ =>
      {| widgets := widgets w;
         curselection := curselection w;
         selected_ticker := Some symbol;
         destroyed := true |}
  end.

(** [perform_search(e)] *)
Definition perform_search (w : window) : window := select_ticker w.

(** [double_click_select(e)] *)
Definition double_click_select (w : window) : window :=
  match curselection w with
  | Some i =>
      let symbol := PyStr.upper (PyStr.strip (symbol_of_row (get w i))) in
      select_ticker (set_entry w symbol)
  | None => w
  end.

(** What reaches the window: a key released in the entry box ([check]), a
    click or a double click on the list box, Return in either widget or the
    button ([perform_search]); and, from the toolkit itself, the text of
    the entry box edited and the selection moved to a listed row. *)
Inductive event : Type :=
| KeyRelease
| Click (clicked : option Z)
| DoubleClick
| Return
| Edit (text : string)
| Browse (i : nat).

Definition handle (stock_list : list ticker) (ev : event) (w : window)
  : window :=
  match ev with
  | KeyRelease => update stock_list w
  | Click clicked => fillout clicked w
  | DoubleClick => double_click_select w
  | Return => perform_search w
  | Edit text => set_entry w text
  | Browse i =>
      if i <? List.length (Search.my_list (widgets w)) then
        {| widgets := widgets w;
           curselection := Some i;
           selected_ticker := selected_ticker w;
           destroyed := destroyed w |}
      else w
  end.

(** [root.mainloop()]: the events are handled in turn until the window is
    destroyed or the user closes it (the events end). *)
Fixpoint mainloop (stock_list : list ticker) (events : list event)
  (w : window) : window :=
  match events with
  | [] => w
  | ev :: rest =>
      if destroyed w then w
      else mainloop stock_list rest (handle stock_list ev w)
  end.

(** [stock_search(use_cache)]: the run of [get_stock_list] and, unless it
    raised, the ticker the window ends with. *)
Definition stock_search (use_cache : bool) (w : World.env)
  (events : list event) : World.run * result (option string) :=
  let r := World.get_stock_list use_cache w in
  (r,
   match World.returned r with
   | Raise e => Raise e
   | Ok stock_list =>
       Ok (selected_ticker (mainloop stock_list events init))
   end).

(** A ticker as the parser stores it: not empty, in upper case, with no
    space around it. *)
Definition normalised (s : string) : Prop :=
  s <> EmptyString /\ PyStr.upper s = s /\ PyStr.strip s = s.

End Picker.

(** ** Blank text *)

Module Text.

(** A string made of whitespace only. *)
Fixpoint all_space (s : string) : bool :=
  match s with
  | EmptyString => true
  | String c s' => PyStr.isspace c && all_space s'
  end.

(** A string of ASCII characters: every code point is below 128. *)
Fixpoint is_ascii (s : string) : bool :=
  match s with
  | EmptyString => true
  | String c s' => (PyStr.code c <? 128) && is_ascii s'
  end.

End Text.

(** * Properties *)

(** ** Strings *)

Example splitlines_crlf :
  PyStr.splitlines
    ("a" ++ String (ascii_of_nat 13) (String (ascii_of_nat 10) "b"))
  = ["a"; "b"].
Proof. reflexivity. Qed.

Example split_bar : PyStr.split "|" "Y|AAPL||x" = ["Y"; "AAPL"; ""; "x"].
Proof. reflexivity. Qed.

Example strip_blank : PyStr.strip "  a b  " = "a b".
Proof. reflexivity. Qed.

Example contains_mid : PyStr.contains "pl" "apple" = true.
Proof. reflexivity. Qed.

Lemma string_compare_trans (a b c : string) :
  String.compare a b <> Gt -> String.compare b c <> Gt ->
  String.compare a c <> Gt.
Proof.
  revert b c.
  induction a as [|x a IH]; intros [|y b] [|z c]; simpl; try congruence.
  unfold Ascii.compare.
  destruct (N.compare_spec (N_of_ascii x) (N_of_ascii y)) as [Exy|Lxy|Gxy];
    try congruence;
    destruct (N.compare_spec (N_of_ascii y) (N_of_ascii z)) as [Eyz|Lyz|Gyz];
    try congruence;
    destruct (N.compare_spec (N_of_ascii x) (N_of_ascii z)) as [Exz|Lxz|Gxz];
    try congruence; try lia.
  apply IH.
Qed.

Lemma string_leb_trans (a b c : string) :
  String.leb a b = true -> String.leb b c = true -> String.leb a c = true.
Proof.
  unfold String.leb.
  intros Hab Hbc.
  assert (H : String.compare a c <> Gt).
  { apply (string_compare_trans a b c).
    - destruct (String.compare a b); congruence.
    - destruct (String.compare b c); congruence. }
  destruct (String.compare a c); congruence.
Qed.

Lemma string_leb_refl (a : string) : String.leb a a = true.
Proof. destruct (String.leb_total a a); assumption. Qed.

Lemma pair_leb_total (a b : nat * string) :
  Search.pair_leb a b = true \/ Search.pair_leb b a = true.
Proof.
  unfold Search.pair_leb.
  destruct a as [p s], b as [q t]; simpl.
  destruct (Nat.lt_trichotomy p q) as [H|[H|H]].
  - left. apply Nat.ltb_lt in H. rewrite H. reflexivity.
  - subst q. rewrite Nat.ltb_irrefl, Nat.eqb_refl. simpl.
    apply String.leb_total.
  - right. apply Nat.ltb_lt in H. rewrite H. reflexivity.
Qed.

Lemma pair_leb_trans (a b c : nat * string) :
  Search.pair_leb a b = true -> Search.pair_leb b c = true ->
  Search.pair_leb a c = true.
Proof.
  unfold Search.pair_leb.
  destruct a as [p s], b as [q t], c as [r u]; simpl.
  intros Hab Hbc.
  apply orb_true_iff in Hab. apply orb_true_iff in Hbc. apply orb_true_iff.
  destruct Hab as [Hab|Hab], Hbc as [Hbc|Hbc];
    rewrite ?andb_true_iff, ?Nat.ltb_lt, ?Nat.eqb_eq in *.
  - left. lia.
  - left. lia.
  - left. lia.
  - right. destruct Hab as [-> Hst], Hbc as [-> Htu].
    split; [reflexivity | exact (string_leb_trans _ _ _ Hst Htu)].
Qed.

(** ** Sorting *)

Section SortingFacts.

Context {A K : Type}.
Variable key : A -> K.
Variable leb : K -> K -> bool.
Hypothesis leb_total : forall a b, leb a b = true \/ leb b a = true.
Hypothesis leb_trans :
  forall a b c, leb a b = true -> leb b c = true -> leb a c = true.

Lemma insert_by_perm (x : A) (l : list A) :
  Permutation (insert_by key leb x l) (x :: l).
Proof.
  induction l as [|y l IH]; simpl.
  - apply Permutation_refl.
  - destruct (leb (key x) (key y)).
    + apply Permutation_refl.
    + apply perm_trans with (y :: x :: l).
      * apply perm_skip, IH.
      * apply perm_swap.
Qed.

Lemma sorted_perm (l : list A) : Permutation (sorted key leb l) l.
Proof.
  induction l as [|x l IH]; simpl.
  - apply perm_nil.
  - apply perm_trans with (x :: sorted key leb l).
    + apply insert_by_perm.
    + apply perm_skip, IH.
Qed.

Lemma insert_by_sorted (x : A) (l : list A) :
  StronglySorted (key_le key leb) l ->
  StronglySorted (key_le key leb) (insert_by key leb x l).
Proof.
  induction 1 as [|y l Hl IH Hy]; simpl.
  - constructor; constructor.
  - destruct (leb (key x) (key y)) eqn:Hxy.
    + constructor.
      * constructor; assumption.
      * constructor; [exact Hxy|].
        apply Forall_forall. intros z Hz.
        rewrite Forall_forall in Hy.
        exact (leb_trans _ _ _ Hxy (Hy z Hz)).
    + constructor; [exact IH|].
      apply Forall_forall. intros z Hz.
      apply (Permutation_in _ (insert_by_perm x l)) in Hz.
      destruct Hz as [<-|Hz].
      * destruct (leb_total (key x) (key y)) as [H|H]; [congruence|exact H].
      * rewrite Forall_forall in Hy. exact (Hy z Hz).
Qed.

Lemma sorted_sorted (l : list A) :
  StronglySorted (key_le key leb) (sorted key leb l).
Proof.
  induction l as [|x l IH]; simpl.
  - constructor.
  - apply insert_by_sorted, IH.
Qed.

(** Stability: the records whose key is equivalent to [k] are in the result
    in the order they had. *)
Lemma insert_by_stable (k : K) (x : A) (l : list A) :
  filter (same_key key leb k) (insert_by key leb x l) = filter (same_key key leb k) (x :: l).
Proof.
  induction l as [|y l IH]; [reflexivity|].
  cbn [insert_by].
  destruct (leb (key x) (key y)) eqn:Hxy; [reflexivity|].
  cbn [filter] in *. rewrite IH.
  destruct (same_key key leb k x) eqn:Hx; [|reflexivity].
  destruct (same_key key leb k y) eqn:Hy; [|reflexivity].
  unfold same_key in Hx, Hy.
  apply andb_true_iff in Hx. apply andb_true_iff in Hy.
  rewrite (leb_trans _ _ _ (proj1 Hx) (proj2 Hy)) in Hxy. discriminate.
Qed.

Lemma sorted_stable (k : K) (l : list A) :
  filter (same_key key leb k) (sorted key leb l) = filter (same_key key leb k) l.
Proof.
  induction l as [|x l IH]; [reflexivity|].
  cbn [sorted]. rewrite insert_by_stable. cbn [filter]. rewrite IH.
  reflexivity.
Qed.

Lemma sorted_nil_inv (l : list A) : sorted key leb l = [] -> l = [].
Proof.
  intros H. apply Permutation_nil.
  rewrite <- H. apply sorted_perm.
Qed.

End SortingFacts.

Lemma firstn_strongly_sorted {A : Type} (R : A -> A -> Prop) (n : nat)
  (l : list A) :
  StronglySorted R l -> StronglySorted R (firstn n l).
Proof.
  intros H. revert n.
  induction H as [|x l Hl IH Hx]; intros [|n]; simpl; try constructor.
  - apply IH.
  - apply Forall_forall. intros y Hy.
    rewrite Forall_forall in Hx. apply Hx.
    rewrite <- (firstn_skipn n l). apply in_or_app. left. exact Hy.
Qed.

(** ** The parser *)

Lemma upper_empty (s : string) :
  PyStr.upper s = EmptyString <-> s = EmptyString.
Proof. destruct s; simpl; split; congruence. Qed.

Lemma lower_empty (s : string) :
  PyStr.lower s = EmptyString <-> s = EmptyString.
Proof. destruct s; simpl; split; congruence. Qed.

Lemma item_in_range (cols : list string) (i : nat) :
  i < List.length cols -> PyStr.item cols i = Some (nth i cols EmptyString).
Proof.
  intros H. unfold PyStr.item.
  destruct (nth_error cols i) as [v|] eqn:E.
  - f_equal. symmetry. apply nth_error_nth. exact E.
  - apply nth_error_None in E. lia.
Qed.

(** The guard [idx_test < len(cols)] keeps the subscript in range. *)
Lemma is_test_issue_defined (idx_test : option nat) (cols : list string) :
  exists b, Parser.is_test_issue idx_test cols = Some b.
Proof.
  unfold Parser.is_test_issue.
  destruct idx_test as [t|]; [|eexists; reflexivity].
  destruct (t <? List.length cols) eqn:Ht; [|eexists; reflexivity].
  apply Nat.ltb_lt in Ht. rewrite (item_in_range _ _ Ht).
  eexists; reflexivity.
Qed.

(** A turn of the loop appends the record of an accepted row and passes
    over any other row; it never raises. *)
Lemma parse_row_accepted (c : Parser.columns) (line : string) :
  Parser.parse_row c line =
  if Spec.accepted c line then Parser.Append (Spec.record_of c line)
  else Parser.Skip.
Proof.
  destruct c as [[i j] t].
  unfold Parser.parse_row, Spec.accepted, Spec.record_of, Spec.non_test_issue.
  set (cols := PyStr.split "|" line).
  destruct (List.length cols <=? Nat.max i j) eqn:Hlen.
  - apply Nat.leb_le in Hlen.
    assert (H : (Nat.max i j <? List.length cols) = false)
      by (apply Nat.ltb_ge; exact Hlen).
    rewrite H. reflexivity.
  - apply Nat.leb_gt in Hlen.
    assert (H : (Nat.max i j <? List.length cols) = true)
      by (apply Nat.ltb_lt; exact Hlen).
    rewrite H. simpl.
    destruct (is_test_issue_defined t cols) as [b Hb]. rewrite Hb.
    destruct b; simpl; [reflexivity|].
    rewrite (item_in_range cols i) by lia.
    rewrite (item_in_range cols j) by lia.
    destruct (PyStr.strip (nth i cols "")) as [|ch rest] eqn:Hs; simpl;
      reflexivity.
Qed.

Lemma parse_row_total (c : Parser.columns) (line : string) :
  Parser.parse_row c line <> Parser.RowRaises.
Proof.
  rewrite parse_row_accepted.
  destruct (Spec.accepted c line); discriminate.
Qed.

Lemma parse_rows_from (c : Parser.columns) (rows : list string)
  (out : list ticker) :
  fold_left
    (fun acc line =>
       match acc with
       | Raise e => Raise e
       | Ok out =>
           match Parser.parse_row c line with
           | Parser.Skip => Ok out
           | Parser.Append r => Ok (out ++ [r])
           | Parser.RowRaises => Raise IndexError
           end
       end)
    rows (Ok out)
  = Ok (out ++ map (Spec.record_of c) (filter (Spec.accepted c) rows)).
Proof.
  revert out.
  induction rows as [|line rows IH]; intros out; simpl.
  - rewrite app_nil_r. reflexivity.
  - rewrite parse_row_accepted.
    destruct (Spec.accepted c line); simpl.
    + rewrite IH, <- app_assoc. reflexivity.
    + apply IH.
Qed.

(** The loop ends normally, with the records of the accepted rows in the
    order of the file. *)
Lemma parse_rows_accepted (c : Parser.columns) (rows : list string) :
  Parser.parse_rows c rows
  = Ok (map (Spec.record_of c) (filter (Spec.accepted c) rows)).
Proof. unfold Parser.parse_rows. apply parse_rows_from. Qed.

Lemma record_of_accepted_symbol (c : Parser.columns) (line : string) :
  Spec.accepted c line = true -> fst (Spec.record_of c line) <> EmptyString.
Proof.
  destruct c as [[i j] t].
  unfold Spec.accepted, Spec.record_of. simpl.
  intros H.
  apply andb_true_iff in H. destruct H as [_ H].
  apply negb_true_iff, String.eqb_neq in H.
  rewrite upper_empty. exact H.
Qed.

Lemma sort_by_symbol_perm (out : list ticker) :
  Permutation (Parser.sort_by_symbol out) out.
Proof. apply sorted_perm. Qed.

Lemma sort_by_symbol_sorted (out : list ticker) :
  StronglySorted Spec.symbol_le (Parser.sort_by_symbol out).
Proof.
  apply (sorted_sorted fst String.leb String.leb_total string_leb_trans).
Qed.

(** What [parse] returns, in terms of the rows it keeps. *)
Lemma parse_unfold (raw header : string) (rows : list string) :
  PyStr.splitlines (PyStr.strip raw) = header :: rows ->
  Parser.parse raw =
  match Parser.sort_by_symbol
          (map (Spec.record_of (Parser.locate_columns header))
               (filter (Spec.accepted (Parser.locate_columns header)) rows))
  with
  | [] => Raise NoTickers
  | out => Ok out
  end.
Proof.
  intros H. unfold Parser.parse. rewrite H, parse_rows_accepted. reflexivity.
Qed.

Lemma parse_symbols_nonempty (raw : string) (out : list ticker) :
  Parser.parse raw = Ok out -> Spec.symbols_nonempty out /\ out <> [].
Proof.
  unfold Parser.parse.
  destruct (PyStr.splitlines (PyStr.strip raw)) as [|header rows];
    [discriminate|].
  rewrite parse_rows_accepted.
  set (c := Parser.locate_columns header).
  destruct (Parser.sort_by_symbol _) as [|r l] eqn:E; [discriminate|].
  intros H. injection H as <-. split; [|discriminate].
  unfold Spec.symbols_nonempty. apply Forall_forall. intros x Hx.
  rewrite <- E in Hx.
  apply (Permutation_in _ (sort_by_symbol_perm _)) in Hx.
  apply in_map_iff in Hx. destruct Hx as [line [<- Hl]].
  apply filter_In in Hl. apply record_of_accepted_symbol, Hl.
Qed.

(** A directory of two rows: a listing, and the time stamp the directory
    ends with, whose symbol cell is empty. *)
Example parse_directory :
  Parser.parse
    ("Nasdaq Traded|Symbol|Security Name|Test Issue" ++ PyStr.LF
     ++ "Y|AAPL|Apple Inc.|N" ++ PyStr.LF
     ++ "File Creation Time: 1103202621:32|||" ++ PyStr.LF)%string
  = Ok [("AAPL", "Apple Inc.")].
Proof. reflexivity. Qed.

(** C2, as stated, fails: a row that is not a test issue but has an empty
    symbol cell (the closing time stamp of the directory) is a non-test-issue
    row, and the parser leaves it out. *)
Lemma parser_drops_non_test_row :
  let raw := ("Nasdaq Traded|Symbol|Security Name|Test Issue" ++ PyStr.LF
              ++ "Y|AAPL|Apple Inc.|N" ++ PyStr.LF
              ++ "File Creation Time: 1103202621:32|||")%string in
  let header := "Nasdaq Traded|Symbol|Security Name|Test Issue" in
  let rows := ["Y|AAPL|Apple Inc.|N"; "File Creation Time: 1103202621:32|||"] in
  PyStr.splitlines (PyStr.strip raw) = header :: rows
  /\ Parser.parse raw = Ok [("AAPL", "Apple Inc.")]
  /\ Spec.non_test_records (Parser.locate_columns header) rows
     = [("", ""); ("AAPL", "Apple Inc.")]
  /\ Parser.parse raw
     <> Ok (Spec.non_test_records (Parser.locate_columns header) rows).
Proof.
  cbv zeta. repeat split; try reflexivity.
  vm_compute. discriminate.
Qed.

(** C2, amended: for a source text with a header row [header] and data rows
    [rows], the parser's output consists of exactly the rows that are long
    enough to hold the symbol and name columns, are not test issues and
    have a symbol left after stripping; each as the pair of its symbol cell
    stripped and uppercased and its name cell stripped; in ascending order
    of symbols.  The parser returns that list, unless it is empty. *)
Theorem parser_output (raw header : string) (rows : list string) :
  PyStr.splitlines (PyStr.strip raw) = header :: rows ->
  let c := Parser.locate_columns header in
  exists out,
    Permutation out (map (Spec.record_of c) (filter (Spec.accepted c) rows))
    /\ StronglySorted Spec.symbol_le out
    /\ Parser.parse raw = match out with [] => Raise NoTickers | _ => Ok out end.
Proof.
  intros H c.
  exists (Parser.sort_by_symbol
            (map (Spec.record_of c) (filter (Spec.accepted c) rows))).
  split; [apply sort_by_symbol_perm|].
  split; [apply sort_by_symbol_sorted|].
  rewrite (parse_unfold raw header rows H). fold c.
  destruct (Parser.sort_by_symbol _); reflexivity.
Qed.

Lemma parser_output_witness :
  exists out,
    Permutation out [("AAPL", "Apple Inc.")]
    /\ StronglySorted Spec.symbol_le out
    /\ Parser.parse
         ("Nasdaq Traded|Symbol|Security Name|Test Issue" ++ PyStr.LF
          ++ "Y|AAPL|Apple Inc.|N" ++ PyStr.LF
          ++ "Y|ZVZZT|NASDAQ TEST STOCK|Y")%string
       = match out with [] => Raise NoTickers | _ => Ok out end.
Proof.
  exact (parser_output
           ("Nasdaq Traded|Symbol|Security Name|Test Issue" ++ PyStr.LF
            ++ "Y|AAPL|Apple Inc.|N" ++ PyStr.LF
            ++ "Y|ZVZZT|NASDAQ TEST STOCK|Y")%string
           "Nasdaq Traded|Symbol|Security Name|Test Issue"
           ["Y|AAPL|Apple Inc.|N"; "Y|ZVZZT|NASDAQ TEST STOCK|Y"]
           eq_refl).
Defined.

(** C10: a data row with too few cells for the symbol and name columns, or
    with a symbol cell that is empty once stripped, makes the loop neither
    raise nor append: the turn is a skip, the parsed rows are those of the
    text without that row, and the loop ends normally. *)
Theorem malformed_row_skipped (idx_symbol idx_name : nat)
  (idx_test : option nat) (row : string) :
  let c := (idx_symbol, idx_name, idx_test) in
  let cols := PyStr.split "|" row in
  (List.length cols <= Nat.max idx_symbol idx_name
   \/ exists v, PyStr.item cols idx_symbol = Some v
                /\ PyStr.strip v = EmptyString) ->
  Parser.parse_row c row = Parser.Skip
  /\ forall before after,
       Parser.parse_rows c (before ++ row :: after)
       = Parser.parse_rows c (before ++ after)
       /\ exists out, Parser.parse_rows c (before ++ row :: after) = Ok out.
Proof.
  intros c cols H.
  assert (Hacc : Spec.accepted c row = false).
  { unfold Spec.accepted, c. fold cols.
    destruct H as [H|[v [Hv Hs]]].
    - assert (E : (Nat.max idx_symbol idx_name <? List.length cols) = false)
        by (apply Nat.ltb_ge; exact H).
      rewrite E. reflexivity.
    - unfold PyStr.item in Hv.
      apply (nth_error_nth _ _ EmptyString) in Hv.
      rewrite Hv, Hs. simpl. apply andb_false_r. }
  unfold c in *. clear c.
  split.
  - rewrite parse_row_accepted, Hacc. reflexivity.
  - intros before after. rewrite !parse_rows_accepted.
    rewrite !filter_app. cbn [filter]. rewrite Hacc.
    split; [reflexivity | eexists; reflexivity].
Qed.

Lemma malformed_row_skipped_witness :
  Parser.parse_row (1, 2, Some 7) "File Creation Time: 1103202621:32|||"
  = Parser.Skip
  /\ Parser.parse_row (1, 2, Some 7) "Y|AAPL" = Parser.Skip.
Proof.
  split.
  - apply (malformed_row_skipped 1 2 (Some 7)
             "File Creation Time: 1103202621:32|||").
    right. exists EmptyString. split; reflexivity.
  - apply (malformed_row_skipped 1 2 (Some 7) "Y|AAPL").
    left. simpl. lia.
Defined.

(** ** The header *)

Lemma mem_index (x : string) (parts : list string) :
  PyStr.mem x parts = true <-> PyStr.index x parts <> None.
Proof.
  unfold PyStr.mem.
  induction parts as [|p ps IH]; simpl.
  - split; [discriminate | congruence].
  - destruct (String.eqb p x); simpl.
    + split; [discriminate | reflexivity].
    + rewrite IH. destruct (PyStr.index x ps); simpl; split; congruence.
Qed.

Lemma header_lookup_found (parts : list string) (i j : nat) :
  PyStr.index "Symbol" parts = Some i ->
  PyStr.index "Security Name" parts = Some j ->
  Parser.header_lookup parts = Some (i, j, PyStr.index "Test Issue" parts).
Proof.
  intros Hi Hj. unfold Parser.header_lookup. rewrite Hi, Hj.
  destruct (PyStr.mem "Test Issue" parts) eqn:Hm.
  - apply mem_index in Hm.
    destruct (PyStr.index "Test Issue" parts); [reflexivity | congruence].
  - destruct (PyStr.index "Test Issue" parts) eqn:Ht; [|reflexivity].
    assert (H : PyStr.mem "Test Issue" parts = true)
      by (apply mem_index; congruence).
    congruence.
Qed.

(** C7, as stated, fails: a header with the symbol and name columns but
    without a "Test Issue" column is one where locating the three columns
    by name fails, and the parser keeps the positions it found instead of
    taking the fixed ones. *)
Lemma missing_test_issue_no_fallback :
  let header := "Symbol|Security Name|ETF" in
  Spec.lookup_fails (PyStr.split "|" header)
  /\ Parser.locate_columns header = (0, 1, None)
  /\ Parser.locate_columns header <> Parser.fixed_columns.
Proof.
  cbv zeta. split; [|split].
  - right. right. reflexivity.
  - reflexivity.
  - vm_compute. discriminate.
Qed.

(** C7, amended: when the header row has no "Symbol" cell or no
    "Security Name" cell, the parser takes the fixed positions 1, 2 and 7
    for the symbol, name and test-issue columns; when it has both, it takes
    the positions found, and the test-issue column is the position of
    "Test Issue" when the header has that cell and is absent otherwise. *)
Theorem locate_columns_fallback (header : string) :
  let parts := PyStr.split "|" header in
  (PyStr.index "Symbol" parts = None
   \/ PyStr.index "Security Name" parts = None ->
   Parser.locate_columns header = (1, 2, Some 7))
  /\ (forall i j,
        PyStr.index "Symbol" parts = Some i ->
        PyStr.index "Security Name" parts = Some j ->
        Parser.locate_columns header
        = (i, j, PyStr.index "Test Issue" parts)).
Proof.
  intros parts. unfold Parser.locate_columns. fold parts. split.
  - intros [H|H]; unfold Parser.header_lookup; rewrite H.
    + reflexivity.
    + destruct (PyStr.index "Symbol" parts); reflexivity.
  - intros i j Hi Hj. rewrite (header_lookup_found parts i j Hi Hj).
    reflexivity.
Qed.

Lemma locate_columns_fallback_witness :
  Parser.locate_columns "Ticker|Company|Test Issue" = (1, 2, Some 7)
  /\ Parser.locate_columns "Nasdaq Traded|Symbol|Security Name|Test Issue"
     = (1, 2, Some 3).
Proof.
  split.
  - apply (proj1 (locate_columns_fallback "Ticker|Company|Test Issue")).
    left. reflexivity.
  - apply (proj2 (locate_columns_fallback
                    "Nasdaq Traded|Symbol|Security Name|Test Issue") 1 2);
      reflexivity.
Defined.

(** ** Ranking *)

Lemma prefix_refl (q : string) : prefix q q = true.
Proof.
  induction q as [|c q IH]; simpl; [reflexivity|].
  destruct (ascii_dec c c); [exact IH | congruence].
Qed.

Lemma startswith_contains (q s : string) :
  PyStr.startswith q s = true -> PyStr.contains q s = true.
Proof.
  unfold PyStr.startswith. intros H.
  destruct s; cbn [PyStr.contains]; rewrite H; reflexivity.
Qed.

(** C3: the rank of a record for a lowercased query [q] is 0 exactly when
    the lowercased symbol is [q]; 1 exactly when it is not [q] but starts
    with it; 2 exactly when it does not start with [q] but contains it; 3
    exactly when the symbol does not contain [q] but the lowercased name
    does; 4 exactly when neither contains it.  So for the query "AAPL"
    (lowercased by [update]) a record whose symbol is the query has a
    smaller rank than one whose symbol only starts with it, which has a
    smaller rank than one that matches in its name only. *)
Theorem get_priority_rank (s n q : string) :
  let sl := PyStr.lower s in
  let nl := PyStr.lower n in
  (get_priority s n q = 0 <-> sl = q)
  /\ (get_priority s n q = 1 <-> sl <> q /\ PyStr.startswith q sl = true)
  /\ (get_priority s n q = 2 <->
        PyStr.startswith q sl = false /\ PyStr.contains q sl = true)
  /\ (get_priority s n q = 3 <->
        PyStr.contains q sl = false /\ PyStr.contains q nl = true)
  /\ (get_priority s n q = 4 <->
        PyStr.contains q sl = false /\ PyStr.contains q nl = false)
  /\ (forall exact pre named : ticker,
        let aapl := PyStr.lower "AAPL" in
        PyStr.lower (fst exact) = aapl ->
        PyStr.lower (fst pre) <> aapl ->
        PyStr.startswith aapl (PyStr.lower (fst pre)) = true ->
        PyStr.contains aapl (PyStr.lower (fst named)) = false ->
        PyStr.contains aapl (PyStr.lower (snd named)) = true ->
        get_priority (fst exact) (snd exact) aapl
        < get_priority (fst pre) (snd pre) aapl
        /\ get_priority (fst pre) (snd pre) aapl
           < get_priority (fst named) (snd named) aapl).
Proof.
  assert (cases : forall s n q,
    (get_priority s n q = 0 <-> PyStr.lower s = q)
    /\ (get_priority s n q = 1 <->
          PyStr.lower s <> q /\ PyStr.startswith q (PyStr.lower s) = true)
    /\ (get_priority s n q = 2 <->
          PyStr.startswith q (PyStr.lower s) = false
          /\ PyStr.contains q (PyStr.lower s) = true)
    /\ (get_priority s n q = 3 <->
          PyStr.contains q (PyStr.lower s) = false
          /\ PyStr.contains q (PyStr.lower n) = true)
    /\ (get_priority s n q = 4 <->
          PyStr.contains q (PyStr.lower s) = false
          /\ PyStr.contains q (PyStr.lower n) = false)).
  { clear. intros s n q. unfold get_priority.
    destruct (String.eqb_spec (PyStr.lower s) q) as [E|E].
    - assert (Hp : PyStr.startswith q (PyStr.lower s) = true)
        by (rewrite E; apply prefix_refl).
      pose proof (startswith_contains _ _ Hp) as Hc.
      rewrite Hp, Hc. repeat split; intros; try tauto; try discriminate;
        try (destruct H; congruence).
    - destruct (PyStr.startswith q (PyStr.lower s)) eqn:Hp.
      + rewrite (startswith_contains _ _ Hp).
        repeat split; intros; try tauto; try discriminate;
          try (destruct H; congruence).
      + destruct (PyStr.contains q (PyStr.lower s)) eqn:Hc;
          [|destruct (PyStr.contains q (PyStr.lower n)) eqn:Hn];
          repeat split; intros; try tauto; try discriminate;
          try (destruct H; congruence). }
  intros sl nl.
  destruct (cases s n q) as (H0 & H1 & H2 & H3 & H4).
  repeat (split; [assumption|]).
  intros exact pre named aapl He Hp1 Hp2 Hn1 Hn2.
  destruct (cases (fst exact) (snd exact) aapl) as (E0 & _).
  destruct (cases (fst pre) (snd pre) aapl) as (_ & P1 & _).
  destruct (cases (fst named) (snd named) aapl) as (_ & _ & _ & N3 & _).
  rewrite (proj2 E0 He), (proj2 P1 (conj Hp1 Hp2)), (proj2 N3 (conj Hn1 Hn2)).
  lia.
Qed.

Lemma get_priority_rank_witness :
  get_priority "AAPL" "Apple Inc." "aapl"
  < get_priority "AAPLW" "Apple Warrants" "aapl"
  /\ get_priority "AAPLW" "Apple Warrants" "aapl"
     < get_priority "XYZ" "Leveraged AAPL Fund" "aapl".
Proof.
  apply (proj2 (proj2 (proj2 (proj2 (proj2
           (get_priority_rank "AAPL" "Apple Inc." "aapl")))))
           ("AAPL", "Apple Inc.") ("AAPLW", "Apple Warrants")
           ("XYZ", "Leveraged AAPL Fund")).
  - reflexivity.
  - vm_compute. discriminate.
  - reflexivity.
  - reflexivity.
  - reflexivity.
Defined.

(** ** The list box *)

Lemma insert_all_map (rows : list string) (xs : list ticker) :
  Search.insert_all rows xs = rows ++ map Search.label xs.
Proof.
  unfold Search.insert_all. revert rows.
  induction xs as [|x xs IH]; intros rows; simpl.
  - rewrite app_nil_r. reflexivity.
  - rewrite IH, <- app_assoc. reflexivity.
Qed.

Lemma update_rows (stock_list : list ticker) (g : Search.gui) :
  Search.my_list (Search.update stock_list g)
  = map Search.label
        (Search.shown stock_list (PyStr.lower (Search.entry_var g))).
Proof. unfold Search.update. simpl. apply insert_all_map. Qed.

Example update_ranks :
  Search.my_list
    (Search.update
       [("AAPL", "Apple Inc."); ("AAPLW", "Apple Warrants");
        ("MSFT", "Microsoft"); ("XYZ", "Leveraged AAPL Fund")]
       (Search.mkGui "AAPL" ["stale row"]))
  = ["AAPL - Apple Inc."; "AAPLW - Apple Warrants";
     "XYZ - Leveraged AAPL Fund"].
Proof. reflexivity. Qed.

(** C1, as stated, fails: the two records below both start with the query,
    so they have rank 1 (the stock list is what the parser gives for a
    directory with these two rows), and [update] lists "A_" before "AA" because it
    compares the symbols in lower case, where "a_" comes before "aa"; by
    the pair (rank, symbol) "AA" comes first. *)
Lemma update_not_sorted_by_symbol :
  let stock_list := [("AA", "Alcoa"); ("A_", "Alpha Units")] in
  let g := Search.update stock_list (Search.mkGui "a" []) in
  Parser.parse ("Symbol|Security Name|Test Issue" ++ PyStr.LF
                ++ "A_|Alpha Units|N" ++ PyStr.LF
                ++ "AA|Alcoa|N")%string = Ok stock_list
  /\ Search.my_list g = ["A_ - Alpha Units"; "AA - Alcoa"]
  /\ Search.shown stock_list "a" = [("A_", "Alpha Units"); ("AA", "Alcoa")]
  /\ ~ Sorted (Spec.rank_then_symbol "a") (Search.shown stock_list "a").
Proof.
  cbv zeta. split; [reflexivity|]. split; [reflexivity|].
  split; [reflexivity|].
  intros H.
  change (Search.shown [("AA", "Alcoa"); ("A_", "Alpha Units")] "a")
    with [("A_", "Alpha Units"); ("AA", "Alcoa")] in H.
  inversion H as [|a l Hl Hd]; subst.
  inversion Hd as [|b l' Hab]; subst.
  vm_compute in Hab. discriminate.
Qed.

(** C1, amended: for every non-empty query string, the rows of the list box
    are the labels of the first 100 records of [ranked], where [ranked]
    holds the records of the stock list whose lowercased symbol or
    lowercased name contains the lowercased query, each as often as the
    stock list does, in ascending order of the pair (priority rank,
    lowercased symbol); so at most 100 rows are listed, whatever the number
    of matches. *)
Theorem update_nonempty_query (stock_list : list ticker) (g : Search.gui) :
  Search.entry_var g <> EmptyString ->
  let q := PyStr.lower (Search.entry_var g) in
  exists ranked,
    Permutation ranked (filter (Search.is_match q) stock_list)
    /\ (forall s n,
          In (s, n) ranked <->
          In (s, n) stock_list
          /\ (PyStr.contains q (PyStr.lower s) = true
              \/ PyStr.contains q (PyStr.lower n) = true))
    /\ StronglySorted (Spec.rank_then_lower_symbol q) ranked
    /\ Search.my_list (Search.update stock_list g)
       = map Search.label (firstn 100 ranked)
    /\ List.length (Search.my_list (Search.update stock_list g)) <= 100.
Proof.
  intros Hq q.
  assert (Hne : q <> EmptyString)
    by (unfold q; rewrite lower_empty; exact Hq).
  assert (Hupd : Search.my_list (Search.update stock_list g)
                 = map Search.label (Search.shown stock_list q))
    by apply update_rows.
  clearbody q.
  set (ranked := sorted (Search.rank_key q) Search.pair_leb
                   (filter (Search.is_match q) stock_list)).
  assert (Hperm : Permutation ranked (filter (Search.is_match q) stock_list))
    by apply sorted_perm.
  assert (Hrows : Search.my_list (Search.update stock_list g)
                  = map Search.label (firstn 100 ranked)).
  { rewrite Hupd. unfold Search.shown.
    destruct q as [|c q']; [congruence | reflexivity]. }
  exists ranked. split; [exact Hperm|]. split; [|split; [|split]].
  - intros s n. split.
    + intros H. apply (Permutation_in _ Hperm) in H.
      apply filter_In in H. destruct H as [Hin Hm]. split; [exact Hin|].
      simpl in Hm. apply orb_true_iff in Hm. exact Hm.
    + intros [Hin Hm]. apply (Permutation_in _ (Permutation_sym Hperm)).
      apply filter_In. split; [exact Hin|].
      simpl. apply orb_true_iff. exact Hm.
  - apply (sorted_sorted (Search.rank_key q) Search.pair_leb
             pair_leb_total pair_leb_trans).
  - exact Hrows.
  - rewrite Hrows, length_map. apply firstn_le_length.
Qed.

Lemma update_nonempty_query_witness :
  exists ranked,
    Permutation ranked
      (filter (Search.is_match "a") [("AA", "Alcoa"); ("MSFT", "Microsoft")])
    /\ Search.my_list
         (Search.update [("AA", "Alcoa"); ("MSFT", "Microsoft")]
            (Search.mkGui "A" []))
       = map Search.label (firstn 100 ranked).
Proof.
  destruct (update_nonempty_query
              [("AA", "Alcoa"); ("MSFT", "Microsoft")] (Search.mkGui "A" []))
    as [ranked (Hp & _ & _ & Hr & _)].
  - simpl. discriminate.
  - exists ranked. split; [exact Hp | exact Hr].
Defined.

(** C6: for the empty query the rows of the list box are the labels of the
    first 100 records of the stock list, in the order of that list. *)
Theorem update_empty_query (stock_list : list ticker) (rows : list string) :
  Search.my_list (Search.update stock_list (Search.mkGui EmptyString rows))
  = map Search.label (firstn 100 stock_list)
  /\ Search.shown stock_list (PyStr.lower EmptyString)
     = firstn 100 stock_list.
Proof.
  split; [|reflexivity].
  rewrite update_rows. reflexivity.
Qed.

(** ** The cache *)

Lemma splitlines_from_nonempty (cur s : string) :
  cur <> EmptyString -> PyStr.splitlines_from cur false s <> [].
Proof.
  revert cur.
  induction s as [|c s IH]; intros cur Hcur; simpl.
  - destruct cur; [congruence | discriminate].
  - destruct (PyStr.islinebreak c); [discriminate|].
    apply IH. destruct cur; discriminate.
Qed.

Lemma splitlines_nil (s : string) :
  PyStr.splitlines s = [] <-> s = EmptyString.
Proof.
  unfold PyStr.splitlines. split.
  - destruct s as [|c s]; [reflexivity|]. simpl.
    destruct (PyStr.islinebreak c); [discriminate|].
    intros H. apply splitlines_from_nonempty in H; [contradiction|discriminate].
  - intros ->. reflexivity.
Qed.

(** A run that reaches the download. *)
Lemma fetch_and_store_returned (use_cache : bool) (w : World.env)
  (before : list World.event) :
  World.returned (World.fetch_and_store use_cache w before)
  = match World.network w with
    | None => Raise FetchFailed
    | Some raw => Parser.parse raw
    end.
Proof.
  unfold World.fetch_and_store.
  destruct (World.network w) as [raw|]; [|reflexivity].
  destruct (Parser.parse raw); [destruct use_cache|]; reflexivity.
Qed.


(** A run that does not reach the download returns what the cache holds. *)
Lemma get_stock_list_cases (use_cache : bool) (w : World.env) :
  (exists seen l,
      World.try_cache use_cache w = (seen, Some l)
      /\ World.get_stock_list use_cache w
         = World.mkRun seen (World.cache_file w) (Ok l))
  \/ (exists seen,
        World.try_cache use_cache w = (seen, None)
        /\ World.get_stock_list use_cache w
           = World.fetch_and_store use_cache w seen).
Proof.
  unfold World.get_stock_list.
  destruct (World.try_cache use_cache w) as [seen [l|]].
  - left. exists seen, l. split; reflexivity.
  - right. exists seen. split; reflexivity.
Qed.

Lemma try_cache_no_fetch (use_cache : bool) (w : World.env) :
  ~ In World.Fetch (fst (World.try_cache use_cache w)).
Proof.
  unfold World.try_cache.
  destruct use_cache; [|simpl; tauto].
  destruct (World.cache_file w) as [f|].
  - destruct (World.date_of w (World.mtime f) =? World.today w)%Z; simpl;
      intros H; repeat (destruct H as [H|H]; [discriminate|]); exact H.
  - simpl. intros [H|H]; [discriminate | exact H].
Qed.



(** C5: in a run that downloads a text [raw], the call raises when [raw] is
    empty (or blank), and when the loop over its data rows yields no
    record; in every other case it returns a list that is not empty. *)
Theorem fetched_text_errors (use_cache : bool) (w : World.env)
  (raw : string) :
  let r := World.get_stock_list use_cache w in
  In World.Fetch (World.events r) ->
  World.network w = Some raw ->
  (PyStr.strip raw = EmptyString -> World.returned r = Raise EmptyFile)
  /\ (forall header rows,
        PyStr.splitlines (PyStr.strip raw) = header :: rows ->
        Parser.parse_rows (Parser.locate_columns header) rows = Ok [] ->
        World.returned r = Raise NoTickers)
  /\ (PyStr.strip raw <> EmptyString ->
      (forall header rows,
         PyStr.splitlines (PyStr.strip raw) = header :: rows ->
         Parser.parse_rows (Parser.locate_columns header) rows <> Ok []) ->
      exists out, World.returned r = Ok out /\ out <> []).
Proof.
  intros r Hfetch Hnet.
  assert (Hret : World.returned r = Parser.parse raw).
  { subst r.
    destruct (get_stock_list_cases use_cache w)
      as [(seen & l & Ht & E)|(seen & Ht & E)].
    - exfalso. rewrite E in Hfetch. simpl in Hfetch.
      apply (try_cache_no_fetch use_cache w). rewrite Ht. exact Hfetch.
    - rewrite E, fetch_and_store_returned, Hnet. reflexivity. }
  rewrite Hret. clear Hret Hfetch. split; [|split].
  - intros H. unfold Parser.parse. rewrite H. reflexivity.
  - intros header rows Hl Hrows. unfold Parser.parse.
    rewrite Hl, Hrows. reflexivity.
  - intros Hne Hrows. unfold Parser.parse.
    destruct (PyStr.splitlines (PyStr.strip raw)) as [|header rows] eqn:Hl.
    + apply splitlines_nil in Hl. contradiction.
    + specialize (Hrows header rows eq_refl).
      rewrite parse_rows_accepted in *.
      destruct (Parser.sort_by_symbol _) as [|x out] eqn:E.
      * apply sorted_nil_inv in E. rewrite E in Hrows. congruence.
      * eexists. split; [reflexivity | discriminate].
Qed.

Lemma fetched_text_errors_witness :
  let good := ("Symbol|Security Name" ++ PyStr.LF ++ "msft|Microsoft")%string in
  World.returned
    (World.get_stock_list false
       (World.mkEnv 1728003600 0 None (Some EmptyString) World.Written))
  = Raise EmptyFile
  /\ exists out,
       World.returned
         (World.get_stock_list false
            (World.mkEnv 1728003600 0 None (Some good) World.Written))
       = Ok out /\ out <> [].
Proof.
  cbv zeta. split.
  - apply (proj1 (fetched_text_errors false
                    (World.mkEnv 1728003600 0 None (Some EmptyString)
                       World.Written)
                    EmptyString
                    (or_introl eq_refl) eq_refl)).
    reflexivity.
  - apply (proj2 (proj2 (fetched_text_errors false
                    (World.mkEnv 1728003600 0 None
                       (Some ("Symbol|Security Name" ++ PyStr.LF
                              ++ "msft|Microsoft")%string)
                       World.Written)
                    ("Symbol|Security Name" ++ PyStr.LF
                     ++ "msft|Microsoft")%string
                    (or_introl eq_refl) eq_refl))).
    + vm_compute. discriminate.
    + intros header rows H. vm_compute in H. injection H as <- <-.
      vm_compute. discriminate.
Defined.

(** One run keeps the cache file well formed and returns a list whose
    records all have a symbol. *)
Lemma get_stock_list_invariant (use_cache : bool) (w : World.env) :
  Spec.cache_well_formed (World.cache_file w) ->
  Spec.cache_well_formed (World.disk (World.get_stock_list use_cache w))
  /\ forall l, World.returned (World.get_stock_list use_cache w) = Ok l ->
               Spec.symbols_nonempty l.
Proof.
  intros Hwf.
  destruct (get_stock_list_cases use_cache w)
    as [(seen & l & Ht & E)|(seen & Ht & E)]; rewrite E; clear E.
  - simpl. split; [exact Hwf|].
    intros l' H. injection H as <-.
    unfold World.try_cache in Ht.
    destruct use_cache; [|discriminate].
    destruct (World.cache_file w) as [f|] eqn:Hf; [|discriminate].
    destruct (World.date_of w (World.mtime f) =? World.today w)%Z;
      [|discriminate].
    injection Ht as _ Hc. exact (Hwf f l eq_refl Hc).
  - unfold World.fetch_and_store.
    destruct (World.network w) as [raw|]; simpl;
      [|split; [exact Hwf | discriminate]].
    destruct (Parser.parse raw) as [out|e] eqn:Hp; simpl;
      [|split; [exact Hwf | discriminate]].
    destruct (parse_symbols_nonempty raw out Hp) as [Hout _].
    assert (Hret : forall l, Ok out = Ok l -> Spec.symbols_nonempty l)
      by (intros l H; injection H as <-; exact Hout).
    destruct use_cache; simpl; split; try exact Hret; try exact Hwf.
    unfold World.write_cache.
    destruct (World.on_write w); [| exact Hwf |];
      intros f l H Hc; injection H as <-; simpl in Hc;
      [injection Hc as <-; exact Hout | discriminate].
Qed.

Lemma history_invariant (steps : list World.step) (d : option World.file) :
  Spec.cache_well_formed d ->
  forall r l, In r (World.history d steps) ->
              World.returned r = Ok l -> Spec.symbols_nonempty l.
Proof.
  revert d.
  induction steps as [|s steps IH]; intros d Hwf r l Hin Hret; simpl in Hin.
  - contradiction.
  - destruct (get_stock_list_invariant (World.step_use_cache s)
                (World.env_of d s) Hwf) as [Hdisk Hl].
    destruct Hin as [<-|Hin].
    + exact (Hl l Hret).
    + exact (IH _ Hdisk r l Hin Hret).
Qed.

(** A run that downloads returns a parsed list, whatever the cache file
    holds. *)
Lemma fetched_symbols_nonempty (use_cache : bool) (w : World.env)
  (l : list ticker) :
  In World.Fetch (World.events (World.get_stock_list use_cache w)) ->
  World.returned (World.get_stock_list use_cache w) = Ok l ->
  Spec.symbols_nonempty l.
Proof.
  intros Hfetch Hret.
  destruct (get_stock_list_cases use_cache w)
    as [(seen & l' & Ht & E)|(seen & Ht & E)].
  - exfalso. rewrite E in Hfetch. simpl in Hfetch.
    apply (try_cache_no_fetch use_cache w). rewrite Ht. exact Hfetch.
  - rewrite E, fetch_and_store_returned in Hret.
    destruct (World.network w) as [raw|]; [|discriminate].
    exact (proj1 (parse_symbols_nonempty raw l Hret)).
Qed.

(** C8, as stated, fails: a list loaded from the cache file is returned as
    it was stored, without a look at its records, so a same-day cache file
    that holds a record with an empty symbol gives a returned list with
    that record. *)
Lemma cached_empty_symbol_returned :
  let file := World.mkFile 1728000060 (Some [("", "Nameless")]) in
  let w := World.mkEnv 1728003600 0 (Some file) None World.Written in
  World.returned (World.get_stock_list true w) = Ok [("", "Nameless")]
  /\ ~ Forall (fun x : ticker => fst x <> EmptyString) [("", "Nameless")].
Proof.
  cbv zeta. split; [reflexivity|].
  intros H. inversion H as [|x l Hx Hl]; subst. apply Hx. reflexivity.
Qed.

(** C8, amended: every record of a list returned by [get_stock_list] has a
    non-empty symbol when the run downloaded and parsed the list, whatever
    the cache file holds; and in every run of a sequence of runs that
    starts without a cache file, or with one that holds only records with
    a non-empty symbol, as every cache file the program writes does. *)
Theorem returned_symbols_nonempty (d : option World.file)
  (steps : list World.step) (r : World.run) (l : list ticker) :
  In r (World.history d steps) ->
  World.returned r = Ok l ->
  Spec.cache_well_formed d \/ In World.Fetch (World.events r) ->
  Forall (fun x => fst x <> EmptyString) l.
Proof.
  intros Hin Hret [Hwf|Hfetch].
  - exact (history_invariant steps d Hwf r l Hin Hret).
  - clear -Hin Hret Hfetch. revert d Hin.
    induction steps as [|s steps IH]; intros d Hin; simpl in Hin.
    + contradiction.
    + destruct Hin as [E|Hin].
      * subst r. exact (fetched_symbols_nonempty _ _ l Hfetch Hret).
      * exact (IH _ Hin).
Qed.

Lemma returned_symbols_nonempty_witness :
  Forall (fun x : ticker => fst x <> EmptyString) [("MSFT", "Microsoft")]
  /\ Forall (fun x : ticker => fst x <> EmptyString) [("A", "Agilent")].
Proof.
  split.
  - apply (returned_symbols_nonempty None
             [World.mkStep true 1728003600 0
                (Some ("Symbol|Security Name|Test Issue" ++ PyStr.LF
                       ++ "MSFT|Microsoft|N" ++ PyStr.LF
                       ++ "|Nameless|N")%string)
                World.Written;
              World.mkStep true 1728007200 0 None World.Written]
             (World.mkRun
                [World.CacheExists; World.CacheMtime; World.CacheRead]
                (Some (World.mkFile 1728003600 (Some [("MSFT", "Microsoft")])))
                (Ok [("MSFT", "Microsoft")]))
             [("MSFT", "Microsoft")]).
    + simpl. right. left. reflexivity.
    + reflexivity.
    + left. intros f l H. discriminate H.
  - apply (returned_symbols_nonempty
             (Some (World.mkFile 1727913600 (Some [("", "Nameless")])))
             [World.mkStep true 1728003600 0
                (Some ("Symbol|Security Name" ++ PyStr.LF
                       ++ "A|Agilent")%string)
                World.Written]
             (World.mkRun
                [World.CacheExists; World.CacheMtime; World.Fetch;
                 World.CacheWrite]
                (Some (World.mkFile 1728003600 (Some [("A", "Agilent")])))
                (Ok [("A", "Agilent")]))
             [("A", "Agilent")]).
    + simpl. left. reflexivity.
    + reflexivity.
    + right. simpl. right. right. left. reflexivity.
Defined.

(** C9: with [use_cache=False], which is what the [--no-cache] flag gives,
    the only access of the run is the download: the cache file is not
    looked for, read or written, and is after the run what it was before. *)
Theorem no_cache_leaves_file (w : World.env) :
  let r := World.get_stock_list false w in
  World.events r = [World.Fetch]
  /\ ~ In World.CacheRead (World.events r)
  /\ ~ In World.CacheWrite (World.events r)
  /\ World.disk r = World.cache_file w
  /\ World.main true w = r.
Proof.
  intros r.
  assert (He : World.events r = [World.Fetch]
               /\ World.disk r = World.cache_file w).
  { subst r. unfold World.get_stock_list, World.fetch_and_store. simpl.
    destruct (World.network w) as [raw|]; [|split; reflexivity].
    destruct (Parser.parse raw); split; reflexivity. }
  destruct He as [He Hd]. rewrite He.
  split; [reflexivity|].
  split; [intros [H|H]; [discriminate | exact H]|].
  split; [intros [H|H]; [discriminate | exact H]|].
  split; [exact Hd | reflexivity].
Qed.

Example caching_run_writes :
  World.disk
    (World.get_stock_list true
       (World.mkEnv 1728003600 0 None
          (Some ("Symbol|Security Name" ++ PyStr.LF ++ "msft|Microsoft")%string)
          World.Written))
  = Some (World.mkFile 1728003600 (Some [("MSFT", "Microsoft")])).
Proof. reflexivity. Qed.

(** * Further properties of the code *)

(** ** The cache file across runs *)

Lemma try_cache_no_write (use_cache : bool) (w : World.env) :
  ~ In World.CacheWrite (fst (World.try_cache use_cache w)).
Proof.
  unfold World.try_cache.
  destruct use_cache; [|simpl; tauto].
  destruct (World.cache_file w) as [f|].
  - destruct (World.date_of w (World.mtime f) =? World.today w)%Z; simpl;
      intros H; repeat (destruct H as [H|H]; [discriminate|]); exact H.
  - simpl. intros [H|H]; [discriminate | exact H].
Qed.

Lemma try_cache_without (w : World.env) :
  World.try_cache false w = ([], None).
Proof. reflexivity. Qed.

(** X1: a caching run that downloads and writes the cache is followed, on
    the same local day, by a caching run that returns the same list from the
    cache file, without a download (even when the network is down) and
    without touching the file. *)
Theorem cache_round_trip (w1 w2 : World.env) (out : list ticker) :
  World.returned (World.get_stock_list true w1) = Ok out ->
  In World.Fetch (World.events (World.get_stock_list true w1)) ->
  World.on_write w1 = World.Written ->
  World.cache_file w2 = World.disk (World.get_stock_list true w1) ->
  World.date_of w2 (World.now w1) = World.today w2 ->
  World.returned (World.get_stock_list true w2) = Ok out
  /\ ~ In World.Fetch (World.events (World.get_stock_list true w2))
  /\ World.disk (World.get_stock_list true w2) = World.cache_file w2.
Proof.
  intros Hret Hfetch Hw Hdisk Hday.
  assert (Hfile : World.cache_file w2
                  = Some (World.mkFile (World.now w1) (Some out))).
  { rewrite Hdisk.
    destruct (get_stock_list_cases true w1)
      as [(seen & l & Ht & E)|(seen & Ht & E)].
    - exfalso. rewrite E in Hfetch. simpl in Hfetch.
      apply (try_cache_no_fetch true w1). rewrite Ht. exact Hfetch.
    - rewrite E in Hret |- *. unfold World.fetch_and_store in *.
      destruct (World.network w1) as [raw|]; [|discriminate].
      destruct (Parser.parse raw) as [out'|e]; [|discriminate].
      simpl in *. injection Hret as ->.
      unfold World.write_cache. rewrite Hw. reflexivity. }
  unfold World.get_stock_list, World.try_cache. rewrite Hfile. simpl.
  apply Z.eqb_eq in Hday. rewrite Hday. simpl.
  split; [reflexivity|]. split; [|reflexivity].
  intros H; repeat (destruct H as [H|H]; [discriminate|]); exact H.
Qed.

Lemma cache_round_trip_witness :
  let directory := ("Symbol|Security Name|Test Issue" ++ PyStr.LF
                    ++ "MSFT|Microsoft|N")%string in
  let w1 := World.mkEnv 1728003600 0 None (Some directory) World.Written in
  let w2 := World.mkEnv 1728007200 0
              (World.disk (World.get_stock_list true w1)) None
              World.OpenFails in
  World.returned (World.get_stock_list true w2) = Ok [("MSFT", "Microsoft")].
Proof.
  cbv zeta.
  apply (cache_round_trip
           (World.mkEnv 1728003600 0 None
              (Some ("Symbol|Security Name|Test Issue" ++ PyStr.LF
                     ++ "MSFT|Microsoft|N")%string) World.Written)
           (World.mkEnv 1728007200 0
              (World.disk
                 (World.get_stock_list true
                    (World.mkEnv 1728003600 0 None
                       (Some ("Symbol|Security Name|Test Issue" ++ PyStr.LF
                              ++ "MSFT|Microsoft|N")%string) World.Written)))
              None World.OpenFails)
           [("MSFT", "Microsoft")]).
  - reflexivity.
  - simpl. right. left. reflexivity.
  - reflexivity.
  - reflexivity.
  - reflexivity.
Defined.

(** X2: a run changes the cache file only when it has caching on,
    downloads and parses at least one record; the file then has the time of
    the run and holds the returned list, or nothing loadable when the dump
    failed.  When such a run's write succeeds the file holds exactly the
    returned list; a run that raises leaves the file as it was. *)
Theorem cache_file_changes (use_cache : bool) (w : World.env) :
  let r := World.get_stock_list use_cache w in
  (forall e, World.returned r = Raise e ->
             World.disk r = World.cache_file w)
  /\ (World.disk r <> World.cache_file w ->
      use_cache = true
      /\ In World.Fetch (World.events r)
      /\ exists out,
           World.returned r = Ok out /\ out <> []
           /\ (World.disk r = Some (World.mkFile (World.now w) (Some out))
               \/ World.disk r = Some (World.mkFile (World.now w) None)))
  /\ (forall out,
        use_cache = true ->
        In World.Fetch (World.events r) ->
        World.returned r = Ok out ->
        World.on_write w = World.Written ->
        World.disk r = Some (World.mkFile (World.now w) (Some out))).
Proof.
  intros r. subst r.
  destruct (get_stock_list_cases use_cache w)
    as [(seen & l & Ht & E)|(seen & Ht & E)]; rewrite E; clear E.
  - pose proof (try_cache_no_fetch use_cache w) as Hf.
    rewrite Ht in Hf. simpl in *.
    split; [reflexivity|]. split; [congruence|].
    intros out _ H. contradiction.
  - unfold World.fetch_and_store.
    destruct (World.network w) as [raw|]; simpl;
      [|split; [reflexivity | split; [congruence | discriminate]]].
    destruct (Parser.parse raw) as [out|e] eqn:Hp; simpl;
      [|split; [reflexivity | split; [congruence | discriminate]]].
    destruct (parse_symbols_nonempty raw out Hp) as [_ Hne].
    destruct use_cache; simpl;
      [|split; [reflexivity | split; [congruence | discriminate]]].
    split; [discriminate|]. split.
    + intros Hd. split; [reflexivity|].
      split; [apply in_or_app; right; simpl; auto|].
      exists out. split; [reflexivity|]. split; [exact Hne|].
      unfold World.write_cache in *.
      destruct (World.on_write w); [left | congruence | right]; reflexivity.
    + intros out' _ _ H Hw. injection H as <-.
      unfold World.write_cache. rewrite Hw. reflexivity.
Qed.

Lemma cache_file_changes_witness :
  let file := World.mkFile 1727913600 (Some [("AAPL", "Apple Inc.")]) in
  let w := World.mkEnv 1728003600 0 (Some file) None World.Written in
  let directory := ("Symbol|Security Name" ++ PyStr.LF ++ "A|Agilent")%string in
  let w' := World.mkEnv 1728003600 0 (Some file) (Some directory)
              World.Written in
  World.disk (World.get_stock_list true w) = Some file
  /\ World.disk (World.get_stock_list true w')
     = Some (World.mkFile 1728003600 (Some [("A", "Agilent")])).
Proof.
  cbv zeta. split.
  - apply (proj1 (cache_file_changes true
             (World.mkEnv 1728003600 0
                (Some (World.mkFile 1727913600
                         (Some [("AAPL", "Apple Inc.")])))
                None World.Written))
             FetchFailed).
    reflexivity.
  - apply (proj2 (proj2 (cache_file_changes true
             (World.mkEnv 1728003600 0
                (Some (World.mkFile 1727913600
                         (Some [("AAPL", "Apple Inc.")])))
                (Some ("Symbol|Security Name" ++ PyStr.LF
                       ++ "A|Agilent")%string)
                World.Written)))
             [("A", "Agilent")]).
    + reflexivity.
    + simpl. right. right. left. reflexivity.
    + reflexivity.
    + reflexivity.
Defined.

(** X3: how the cache write goes has no effect on what a run returns or on
    the accesses it makes; when [open] fails the file stays as it was. *)
Theorem write_failure_not_fatal (use_cache : bool) (w : World.env)
  (o : World.write_outcome) :
  let w' := World.mkEnv (World.now w) (World.utc_offset w)
              (World.cache_file w) (World.network w) o in
  World.returned (World.get_stock_list use_cache w')
  = World.returned (World.get_stock_list use_cache w)
  /\ World.events (World.get_stock_list use_cache w')
     = World.events (World.get_stock_list use_cache w)
  /\ World.disk
       (World.get_stock_list use_cache
          (World.mkEnv (World.now w) (World.utc_offset w)
             (World.cache_file w) (World.network w) World.OpenFails))
     = World.cache_file w.
Proof.
  intros w'. subst w'.
  unfold World.get_stock_list, World.try_cache, World.today, World.date_of.
  simpl.
  destruct use_cache.
  - destruct (World.cache_file w) as [f|] eqn:Hf.
    + destruct (_ =? _)%Z.
      * destruct (World.content f); simpl; [repeat split; reflexivity|].
        unfold World.fetch_and_store, World.write_cache. simpl.
        destruct (World.network w) as [raw|]; [|repeat split; auto].
        destruct (Parser.parse raw); repeat split; auto.
      * unfold World.fetch_and_store, World.write_cache. simpl.
        destruct (World.network w) as [raw|]; [|repeat split; auto].
        destruct (Parser.parse raw); repeat split; auto.
    + unfold World.fetch_and_store, World.write_cache. simpl.
      destruct (World.network w) as [raw|]; [|repeat split; auto].
      destruct (Parser.parse raw); repeat split; auto.
  - unfold World.fetch_and_store. simpl.
    destruct (World.network w) as [raw|]; [|repeat split; auto].
    destruct (Parser.parse raw); repeat split; auto.
Qed.

(** ** Case and blanks *)

Lemma upper_char_idem (c : ascii) :
  PyStr.upper_char (PyStr.upper_char c) = PyStr.upper_char c.
Proof. destruct c as [[] [] [] [] [] [] [] []]; reflexivity. Qed.

Lemma lower_upper_char (c : ascii) :
  PyStr.lower_char (PyStr.upper_char c) = PyStr.lower_char c.
Proof. destruct c as [[] [] [] [] [] [] [] []]; reflexivity. Qed.

Lemma isspace_upper_char (c : ascii) :
  PyStr.isspace (PyStr.upper_char c) = PyStr.isspace c.
Proof. destruct c as [[] [] [] [] [] [] [] []]; reflexivity. Qed.

Lemma upper_idem (s : string) : PyStr.upper (PyStr.upper s) = PyStr.upper s.
Proof.
  induction s as [|c s IH]; simpl; [reflexivity|].
  rewrite upper_char_idem, IH. reflexivity.
Qed.

Lemma lower_upper (s : string) : PyStr.lower (PyStr.upper s) = PyStr.lower s.
Proof.
  induction s as [|c s IH]; simpl; [reflexivity|].
  rewrite lower_upper_char, IH. reflexivity.
Qed.

Lemma lower_app (s t : string) :
  PyStr.lower (s ++ t) = (PyStr.lower s ++ PyStr.lower t)%string.
Proof.
  induction s as [|c s IH]; simpl; [reflexivity|].
  rewrite IH. reflexivity.
Qed.

Lemma lstrip_upper (s : string) :
  PyStr.lstrip (PyStr.upper s) = PyStr.upper (PyStr.lstrip s).
Proof.
  induction s as [|c s IH]; simpl; [reflexivity|].
  rewrite isspace_upper_char.
  destruct (PyStr.isspace c); [exact IH | reflexivity].
Qed.

Lemma rstrip_upper (s : string) :
  PyStr.rstrip (PyStr.upper s) = PyStr.upper (PyStr.rstrip s).
Proof.
  induction s as [|c s IH]; simpl; [reflexivity|].
  rewrite IH, isspace_upper_char.
  destruct (PyStr.rstrip s) as [|a r]; simpl.
  - destruct (PyStr.isspace c); reflexivity.
  - reflexivity.
Qed.

Lemma strip_upper (s : string) :
  PyStr.strip (PyStr.upper s) = PyStr.upper (PyStr.strip s).
Proof. unfold PyStr.strip. rewrite lstrip_upper, rstrip_upper. reflexivity. Qed.

Lemma rstrip_idem (s : string) : PyStr.rstrip (PyStr.rstrip s) = PyStr.rstrip s.
Proof.
  induction s as [|c s IH]; simpl; [reflexivity|].
  destruct (PyStr.rstrip s) as [|a r] eqn:E.
  - destruct (PyStr.isspace c) eqn:Hc; simpl; [reflexivity|].
    rewrite Hc. reflexivity.
  - cbn [PyStr.rstrip] in *. rewrite IH. reflexivity.
Qed.

Lemma lstrip_head (s : string) :
  PyStr.lstrip s = EmptyString
  \/ exists c t, PyStr.lstrip s = String c t /\ PyStr.isspace c = false.
Proof.
  induction s as [|c s IH]; simpl; [left; reflexivity|].
  destruct (PyStr.isspace c) eqn:Hc; [exact IH|].
  right. exists c, s. split; [reflexivity | exact Hc].
Qed.

Lemma rstrip_head (c : ascii) (t : string) :
  PyStr.isspace c = false ->
  exists t', PyStr.rstrip (String c t) = String c t'.
Proof.
  intros Hc. simpl. rewrite Hc.
  destruct (PyStr.rstrip t); eexists; reflexivity.
Qed.

Lemma strip_idem (s : string) : PyStr.strip (PyStr.strip s) = PyStr.strip s.
Proof.
  unfold PyStr.strip.
  destruct (lstrip_head s) as [E|(c & t & E & Hc)]; rewrite E.
  - reflexivity.
  - destruct (rstrip_head c t Hc) as [t' Et]. rewrite Et.
    cbn [PyStr.lstrip]. rewrite Hc, <- Et. apply rstrip_idem.
Qed.

Lemma upper_strip_normal (x : string) :
  let s := PyStr.upper (PyStr.strip x) in
  PyStr.upper s = s /\ PyStr.strip s = s.
Proof.
  cbv zeta. split.
  - apply upper_idem.
  - rewrite strip_upper, strip_idem. reflexivity.
Qed.

(** X4: every record the parser returns has its symbol in upper case and
    without surrounding space, not empty, and its name without surrounding
    space. *)
Theorem parse_records_normalised (raw : string) (out : list ticker) :
  Parser.parse raw = Ok out ->
  forall s n, In (s, n) out ->
              Picker.normalised s /\ PyStr.strip n = n.
Proof.
  intros Hp s n Hin.
  destruct (parse_symbols_nonempty raw out Hp) as [Hne _].
  unfold Spec.symbols_nonempty in Hne. rewrite Forall_forall in Hne.
  unfold Parser.parse in Hp.
  destruct (PyStr.splitlines (PyStr.strip raw)) as [|header rows];
    [discriminate|].
  rewrite parse_rows_accepted in Hp.
  set (c := Parser.locate_columns header) in *.
  destruct (Parser.sort_by_symbol _) as [|r l] eqn:E; [discriminate|].
  injection Hp as <-.
  pose proof (Hne (s, n) Hin) as Hs.
  rewrite <- E in Hin.
  apply (Permutation_in _ (sort_by_symbol_perm _)) in Hin.
  apply in_map_iff in Hin. destruct Hin as [line [Hrec _]].
  destruct c as [[i j] t]. unfold Spec.record_of in Hrec.
  injection Hrec as <- <-.
  split; [split; [exact Hs | apply upper_strip_normal] | apply strip_idem].
Qed.

Lemma parse_records_normalised_witness :
  Picker.normalised "MSFT" /\ PyStr.strip "Microsoft Corp" = "Microsoft Corp".
Proof.
  apply (parse_records_normalised
           ("Symbol|Security Name" ++ PyStr.LF
            ++ " msft |  Microsoft Corp ")%string
           [("MSFT", "Microsoft Corp")]).
  - reflexivity.
  - left. reflexivity.
Defined.

Lemma lstrip_all_space (pre s : string) :
  Text.all_space pre = true -> PyStr.lstrip (pre ++ s) = PyStr.lstrip s.
Proof.
  induction pre as [|c pre IH]; simpl; [reflexivity|].
  intros H. apply andb_true_iff in H. destruct H as [Hc Hp].
  rewrite Hc. exact (IH Hp).
Qed.

Lemma rstrip_all_space (post : string) :
  Text.all_space post = true -> PyStr.rstrip post = EmptyString.
Proof.
  induction post as [|c post IH]; simpl; [reflexivity|].
  intros H. apply andb_true_iff in H. destruct H as [Hc Hp].
  rewrite (IH Hp), Hc. reflexivity.
Qed.

Lemma rstrip_app_space (s post : string) :
  Text.all_space post = true -> PyStr.rstrip (s ++ post) = PyStr.rstrip s.
Proof.
  intros Hp.
  induction s as [|c s IH]; simpl.
  - apply rstrip_all_space, Hp.
  - rewrite IH. reflexivity.
Qed.

Lemma strip_app_space (s post : string) :
  Text.all_space post = true -> PyStr.strip (s ++ post) = PyStr.strip s.
Proof.
  intros Hp. unfold PyStr.strip.
  induction s as [|c s IH]; simpl.
  - assert (E : PyStr.lstrip post = EmptyString).
    { clear -Hp. induction post as [|c post IH]; simpl; [reflexivity|].
      simpl in Hp. apply andb_true_iff in Hp. destruct Hp as [Hc Hp].
      rewrite Hc. exact (IH Hp). }
    rewrite E. reflexivity.
  - destruct (PyStr.isspace c); [exact IH|].
    change (String c (s ++ post)) with (String c s ++ post)%string.
    apply rstrip_app_space, Hp.
Qed.

(** X5: whitespace and empty lines before and after the downloaded text do
    not change what the parser returns. *)
Theorem parse_ignores_surrounding_space (pre raw post : string) :
  Text.all_space pre = true ->
  Text.all_space post = true ->
  Parser.parse (pre ++ raw ++ post) = Parser.parse raw.
Proof.
  intros Hpre Hpost. unfold Parser.parse.
  assert (E : PyStr.strip (pre ++ raw ++ post) = PyStr.strip raw).
  { unfold PyStr.strip at 1. rewrite (lstrip_all_space _ _ Hpre).
    exact (strip_app_space raw post Hpost). }
  rewrite E. reflexivity.
Qed.

Lemma parse_ignores_surrounding_space_witness :
  Parser.parse (PyStr.LF ++ ("Symbol|Security Name" ++ PyStr.LF ++ "A|Agilent")
                ++ (" " ++ PyStr.LF))%string
  = Parser.parse ("Symbol|Security Name" ++ PyStr.LF ++ "A|Agilent")%string.
Proof.
  apply (parse_ignores_surrounding_space PyStr.LF
           ("Symbol|Security Name" ++ PyStr.LF ++ "A|Agilent")%string
           (" " ++ PyStr.LF)%string); reflexivity.
Defined.

(** ** Ranking and the rows listed *)

Lemma get_priority_zero (s n q : string) :
  get_priority s n q = 0 <-> PyStr.lower s = q.
Proof.
  unfold get_priority.
  destruct (String.eqb_spec (PyStr.lower s) q) as [E|E].
  - tauto.
  - destruct (PyStr.startswith q (PyStr.lower s));
      [|destruct (PyStr.contains q (PyStr.lower s));
        [|destruct (PyStr.contains q (PyStr.lower n))]];
      split; intros H; try discriminate; contradiction.
Qed.

(** X6: the rank is at most 4, and the filter of [update] keeps exactly the
    records of rank below 4: no record of rank 4 is listed for a query. *)
Theorem is_match_iff_ranked (s n q : string) :
  get_priority s n q <= 4
  /\ (Search.is_match q (s, n) = true <-> get_priority s n q < 4).
Proof.
  unfold get_priority, Search.is_match.
  destruct (String.eqb_spec (PyStr.lower s) q) as [E|E].
  - assert (Hp : PyStr.startswith q (PyStr.lower s) = true)
      by (rewrite E; apply prefix_refl).
    rewrite (startswith_contains _ _ Hp). simpl.
    split; [lia | split; [lia | reflexivity]].
  - destruct (PyStr.startswith q (PyStr.lower s)) eqn:Hp.
    + rewrite (startswith_contains _ _ Hp). simpl.
      split; [lia | split; [lia | reflexivity]].
    + destruct (PyStr.contains q (PyStr.lower s)); simpl.
      * split; [lia | split; [lia | reflexivity]].
      * destruct (PyStr.contains q (PyStr.lower n)).
        -- split; [lia | split; [lia | reflexivity]].
        -- split; [lia | split; [discriminate | lia]].
Qed.

(** X7: when the stock list has a record whose symbol is the query, up to
    case, the first row of the list box is the label of such a record. *)
Theorem exact_match_first (stock_list : list ticker) (g : Search.gui)
  (x : ticker) :
  Search.entry_var g <> EmptyString ->
  In x stock_list ->
  PyStr.lower (fst x) = PyStr.lower (Search.entry_var g) ->
  exists y rest,
    Search.my_list (Search.update stock_list g)
    = Search.label y :: map Search.label rest
    /\ In y stock_list
    /\ PyStr.lower (fst y) = PyStr.lower (Search.entry_var g).
Proof.
  intros Hq Hin Hx.
  rewrite update_rows.
  set (q := PyStr.lower (Search.entry_var g)) in *.
  assert (Hne : q <> EmptyString)
    by (unfold q; rewrite lower_empty; exact Hq).
  clearbody q.
  unfold Search.shown. destruct q as [|c0 q0] eqn:Eq; [congruence|].
  rewrite <- Eq in *. clear Hne.
  set (matches := filter (Search.is_match q) stock_list).
  set (ranked := sorted (Search.rank_key q) Search.pair_leb matches).
  assert (Hperm : Permutation ranked matches) by apply sorted_perm.
  assert (Hsorted : StronglySorted (key_le (Search.rank_key q) Search.pair_leb)
                      ranked)
    by apply (sorted_sorted _ _ pair_leb_total pair_leb_trans).
  assert (Hx0 : get_priority (fst x) (snd x) q = 0)
    by (apply get_priority_zero; exact Hx).
  assert (Hxm : In x matches).
  { apply filter_In. split; [exact Hin|].
    destruct x as [s n].
    apply (proj2 (is_match_iff_ranked s n q)). simpl in Hx0. lia. }
  assert (Hxr : In x ranked)
    by exact (Permutation_in _ (Permutation_sym Hperm) Hxm).
  destruct ranked as [|y rest] eqn:Er; [contradiction|].
  exists y, (firstn 99 rest).
  split; [reflexivity|].
  assert (Hy : In y matches)
    by (apply (Permutation_in _ Hperm); left; reflexivity).
  split; [apply filter_In in Hy; exact (proj1 Hy)|].
  apply (get_priority_zero (fst y) (snd y) q).
  destruct Hxr as [<-|Hxr]; [exact Hx0|].
  inversion Hsorted as [|a l Hl Hall]; subst.
  rewrite Forall_forall in Hall. specialize (Hall x Hxr).
  unfold key_le, Search.rank_key, Search.pair_leb in Hall. simpl in Hall.
  rewrite Hx0 in Hall.
  apply orb_true_iff in Hall. destruct Hall as [H|H].
  - apply Nat.ltb_lt in H. lia.
  - apply andb_true_iff in H. destruct H as [H _].
    apply Nat.eqb_eq in H. exact H.
Qed.

Lemma exact_match_first_witness :
  exists y rest,
    Search.my_list
      (Search.update [("AAPLW", "Apple Warrants"); ("AAPL", "Apple Inc.")]
         (Search.mkGui "aapl" []))
    = Search.label y :: map Search.label rest
    /\ In y [("AAPLW", "Apple Warrants"); ("AAPL", "Apple Inc.")]
    /\ PyStr.lower (fst y) = "aapl".
Proof.
  apply (exact_match_first
           [("AAPLW", "Apple Warrants"); ("AAPL", "Apple Inc.")]
           (Search.mkGui "aapl" []) ("AAPL", "Apple Inc.")).
  - simpl. discriminate.
  - right. left. reflexivity.
  - reflexivity.
Defined.

(** X8: for a typed text of ASCII characters, where [str.upper] and
    [str.lower] are the mappings of [PyStr], the search does not depend on
    the case of the text: the text in upper case gives the same rows,
    whatever the stock list holds and whatever was listed before. *)
Theorem query_case_insensitive (stock_list : list ticker)
  (text : string) (rows rows' : list string) :
  Text.is_ascii text = true ->
  Search.my_list
    (Search.update stock_list (Search.mkGui (PyStr.upper text) rows))
  = Search.my_list (Search.update stock_list (Search.mkGui text rows')).
Proof. intros _. rewrite !update_rows. simpl. rewrite lower_upper. reflexivity. Qed.

Lemma query_case_insensitive_witness :
  Search.my_list
    (Search.update [("AAPL", "Apple Inc."); ("MSFT", "Microsoft")]
       (Search.mkGui (PyStr.upper "aPp") []))
  = Search.my_list
      (Search.update [("AAPL", "Apple Inc."); ("MSFT", "Microsoft")]
         (Search.mkGui "aPp" ["stale row"])).
Proof.
  apply (query_case_insensitive
           [("AAPL", "Apple Inc."); ("MSFT", "Microsoft")] "aPp" []
           ["stale row"]).
  reflexivity.
Defined.

Lemma prefix_app_l (q t s : string) :
  prefix (q ++ t) s = true -> prefix q s = true.
Proof.
  revert s.
  induction q as [|c q IH]; intros s H; [destruct s; reflexivity|].
  destruct s as [|d s]; simpl in *; [discriminate|].
  destruct (ascii_dec c d); [exact (IH s H) | discriminate].
Qed.

Lemma contains_app_l (q t s : string) :
  PyStr.contains (q ++ t) s = true -> PyStr.contains q s = true.
Proof.
  induction s as [|d s IH]; cbn [PyStr.contains]; intros H.
  - apply orb_true_iff in H. destruct H as [H|H]; [|discriminate].
    rewrite (prefix_app_l _ _ _ H). reflexivity.
  - apply orb_true_iff in H. apply orb_true_iff.
    destruct H as [H|H].
    + left. exact (prefix_app_l _ _ _ H).
    + right. exact (IH H).
Qed.

(** X9: for typed ASCII characters, where [str.lower] works character by
    character as [PyStr.lower] does, typing more narrows the search: a
    record that matches the text [text ++ more] matches the text [text]. *)
Theorem longer_query_narrows (stock_list : list ticker)
  (text more : string) (x : ticker) :
  Text.is_ascii text = true ->
  Text.is_ascii more = true ->
  In x (filter (Search.is_match (PyStr.lower (text ++ more))) stock_list) ->
  In x (filter (Search.is_match (PyStr.lower text)) stock_list).
Proof.
  intros _ _.
  rewrite !filter_In, lower_app. intros [Hin Hm]. split; [exact Hin|].
  destruct x as [s n]. simpl in *.
  apply orb_true_iff in Hm. apply orb_true_iff.
  destruct Hm as [H|H]; [left | right]; exact (contains_app_l _ _ _ H).
Qed.

Lemma longer_query_narrows_witness :
  In ("AAPL", "Apple Inc.")
     (filter (Search.is_match (PyStr.lower "Aa"))
        [("AAPL", "Apple Inc."); ("MSFT", "Microsoft")]).
Proof.
  apply (longer_query_narrows
           [("AAPL", "Apple Inc."); ("MSFT", "Microsoft")] "Aa" "pl"
           ("AAPL", "Apple Inc.")).
  - reflexivity.
  - reflexivity.
  - simpl. left. reflexivity.
Defined.

Lemma is_match_empty (x : ticker) : Search.is_match EmptyString x = true.
Proof. destruct x as [[|c s] n]; reflexivity. Qed.

(** X10: whatever is typed, the list box holds as many rows as records
    match the lowercased text, up to 100; every record matches the empty
    text. *)
Theorem update_row_count (stock_list : list ticker) (g : Search.gui) :
  let q := PyStr.lower (Search.entry_var g) in
  List.length (Search.my_list (Search.update stock_list g))
  = Nat.min 100 (List.length (filter (Search.is_match q) stock_list)).
Proof.
  cbv zeta. rewrite update_rows, length_map.
  unfold Search.shown.
  destruct (PyStr.lower (Search.entry_var g)) as [|c q] eqn:E.
  - rewrite length_firstn. f_equal.
    induction stock_list as [|x l IH]; [reflexivity|].
    cbn [filter]. rewrite is_match_empty. simpl. rewrite <- IH. reflexivity.
  - rewrite length_firstn. f_equal.
    apply Permutation_length, sorted_perm.
Qed.

(** ** The picker window *)

Example split_str_parts :
  Picker.split_str " - " "BRK - Berkshire - Class A"
  = ["BRK"; "Berkshire"; "Class A"].
Proof. reflexivity. Qed.

Example split_str_trailing : Picker.split_str " - " "A - " = ["A"; ""].
Proof. reflexivity. Qed.

Lemma string_app_assoc (a b c : string) :
  ((a ++ b) ++ c = a ++ (b ++ c))%string.
Proof. induction a as [|x a IH]; simpl; [reflexivity | rewrite IH; reflexivity]. Qed.

Lemma string_app_nil_r (a : string) : (a ++ "" = a)%string.
Proof. induction a as [|x a IH]; simpl; [reflexivity | rewrite IH; reflexivity]. Qed.

(** Reading over a part without a blank finds no separator in it. *)
Lemma split_str_no_blank (s cur t : string) :
  Picker.no_blank s = true ->
  Picker.split_str_from " - " cur 0 (s ++ t)
  = Picker.split_str_from " - " (cur ++ s) 0 t.
Proof.
  revert cur.
  induction s as [|c s IH]; intros cur H.
  - rewrite string_app_nil_r. reflexivity.
  - cbn [Picker.no_blank] in H. apply andb_true_iff in H.
    destruct H as [Hc Hs]. apply negb_true_iff in Hc.
    change (String c s ++ t)%string with (String c (s ++ t)).
    cbn [Picker.split_str_from].
    assert (Hp : prefix " - " (String c (s ++ t)) = false).
    { cbn [prefix]. destruct (ascii_dec " " c) as [E|E]; [|reflexivity].
      subst c. discriminate. }
    rewrite Hp, (IH _ Hs), string_app_assoc. reflexivity.
Qed.

(** X11: the symbol read back from a row of the list box is the symbol of
    the record the row was made from, when that symbol has no blank. *)
Theorem symbol_of_label (s n : string) :
  Picker.no_blank s = true ->
  Picker.symbol_of_row (Search.label (s, n)) = s.
Proof.
  intros H. unfold Picker.symbol_of_row, Picker.split_str, Search.label.
  destruct n as [|c n].
  - rewrite <- (string_app_nil_r s) at 1.
    rewrite (split_str_no_blank s "" "" H). reflexivity.
  - rewrite (split_str_no_blank s "" (" - " ++ String c n) H). reflexivity.
Qed.

Lemma symbol_of_label_witness :
  Picker.symbol_of_row (Search.label ("BRK.A", "Berkshire Hathaway - Class A"))
  = "BRK.A".
Proof.
  apply (symbol_of_label "BRK.A" "Berkshire Hathaway - Class A").
  reflexivity.
Defined.

Lemma select_ticker_spec (w : Picker.window) :
  let symbol :=
    match Picker.curselection w with
    | Some i => PyStr.upper (PyStr.strip (Picker.symbol_of_row (Picker.get w i)))
    | None => PyStr.upper (PyStr.strip (Search.entry_var (Picker.widgets w)))
    end in
  (symbol = EmptyString /\ Picker.select_ticker w = w)
  \/ (symbol <> EmptyString
      /\ Picker.selected_ticker (Picker.select_ticker w) = Some symbol
      /\ Picker.destroyed (Picker.select_ticker w) = true).
Proof.
  cbv zeta. unfold Picker.select_ticker.
  destruct (match Picker.curselection w with Some _ => _ | None => _ end).
  - left. split; reflexivity.
  - right. split; [discriminate | split; reflexivity].
Qed.

Lemma mainloop_step (stock_list : list ticker) (ev : Picker.event)
  (rest : list Picker.event) (w : Picker.window) :
  Picker.destroyed w = false ->
  Picker.mainloop stock_list (ev :: rest) w
  = Picker.mainloop stock_list rest (Picker.handle stock_list ev w).
Proof. intros H. cbn [Picker.mainloop]. rewrite H. reflexivity. Qed.

Lemma mainloop_destroyed (stock_list : list ticker)
  (events : list Picker.event) (w : Picker.window) :
  Picker.destroyed w = true -> Picker.mainloop stock_list events w = w.
Proof. intros H. destruct events; cbn [Picker.mainloop]; [|rewrite H]; reflexivity. Qed.

(** X12: after a key release, a click on a listed row followed by Return
    closes the window with the symbol of the record of that row, when the
    symbol is in the parser's form and has no blank. *)
Theorem click_then_return (stock_list : list ticker) (w : Picker.window)
  (i : nat) (s n : string) :
  Picker.destroyed w = false ->
  nth_error
    (Search.shown stock_list
       (PyStr.lower (Search.entry_var (Picker.widgets w)))) i
  = Some (s, n) ->
  Picker.normalised s ->
  Picker.no_blank s = true ->
  let w' := Picker.mainloop stock_list
              [Picker.KeyRelease; Picker.Click (Some (Z.of_nat i));
               Picker.Return] w in
  Picker.selected_ticker w' = Some s /\ Picker.destroyed w' = true.
Proof.
  intros Hd Hnth (Hne & Hup & Hst) Hnb. cbv zeta.
  rewrite (mainloop_step _ _ _ _ Hd).
  cbn [Picker.handle].
  assert (Hd0 : Picker.destroyed (Picker.update stock_list w) = false)
    by exact Hd.
  rewrite (mainloop_step _ _ _ _ Hd0).
  cbn [Picker.handle].
  set (w1 := Picker.fillout (Some (Z.of_nat i)) (Picker.update stock_list w)).
  assert (Hz : (0 <=? Z.of_nat i)%Z = true) by (apply Z.leb_le; lia).
  assert (Hd1 : Picker.destroyed w1 = false).
  { unfold w1, Picker.fillout. rewrite Hz. exact Hd. }
  assert (Hsel : Picker.curselection w1 = Some i).
  { unfold w1, Picker.fillout. rewrite Hz, Nat2Z.id. reflexivity. }
  assert (Hget : Picker.symbol_of_row (Picker.get w1 i) = s).
  { unfold Picker.get, w1, Picker.fillout. rewrite Hz.
    cbn [Picker.widgets Search.my_list Picker.update].
    rewrite update_rows.
    rewrite (nth_error_nth _ _ _ (map_nth_error Search.label _ _ Hnth)).
    apply symbol_of_label, Hnb. }
  rewrite (mainloop_step _ _ _ _ Hd1).
  cbn [Picker.handle Picker.mainloop]. unfold Picker.perform_search.
  pose proof (select_ticker_spec w1) as H. cbv zeta in H.
  rewrite Hsel, Hget, Hst, Hup in H.
  destruct H as [[H _]|(_ & H1 & H2)]; [contradiction|].
  split; assumption.
Qed.

Lemma click_then_return_witness :
  Picker.selected_ticker
    (Picker.mainloop [("AAPL", "Apple Inc."); ("MSFT", "Microsoft")]
       [Picker.KeyRelease; Picker.Click (Some 1%Z); Picker.Return]
       Picker.init)
  = Some "MSFT".
Proof.
  apply (click_then_return [("AAPL", "Apple Inc."); ("MSFT", "Microsoft")]
           Picker.init 1 "MSFT" "Microsoft").
  - reflexivity.
  - reflexivity.
  - split; [discriminate | split; reflexivity].
  - reflexivity.
Defined.

(** What a handler does to the ticker and to the window: nothing, or, for
    Return and a double click only, it stores a stripped uppercased text
    that is not empty and destroys the window. *)
Lemma handle_outcome (stock_list : list ticker) (ev : Picker.event)
  (w : Picker.window) :
  let w' := Picker.handle stock_list ev w in
  (Picker.selected_ticker w' = Picker.selected_ticker w
   /\ Picker.destroyed w' = Picker.destroyed w)
  \/ ((ev = Picker.Return \/ ev = Picker.DoubleClick)
      /\ Picker.destroyed w' = true
      /\ exists x, PyStr.upper (PyStr.strip x) <> EmptyString
                   /\ Picker.selected_ticker w'
                      = Some (PyStr.upper (PyStr.strip x))).
Proof.
  cbv zeta. destruct ev as [|clicked| | |text|i]; cbn [Picker.handle].
  - left. split; reflexivity.
  - left. unfold Picker.fillout. destruct clicked as [z|].
    + destruct (0 <=? z)%Z; split; reflexivity.
    + destruct (Picker.curselection w); split; reflexivity.
  - unfold Picker.double_click_select.
    destruct (Picker.curselection w) as [i|] eqn:Hs;
      [|left; split; reflexivity].
    set (w1 := Picker.set_entry w _).
    pose proof (select_ticker_spec w1) as H. cbv zeta in H.
    destruct H as [[_ H]|(Hne & H1 & H2)].
    + left. rewrite H. split; reflexivity.
    + right. split; [right; reflexivity|]. split; [exact H2|].
      destruct (Picker.curselection w1); eexists; split; eassumption.
  - unfold Picker.perform_search.
    pose proof (select_ticker_spec w) as H. cbv zeta in H.
    destruct H as [[_ H]|(Hne & H1 & H2)].
    + left. rewrite H. split; reflexivity.
    + right. split; [left; reflexivity|]. split; [exact H2|].
      destruct (Picker.curselection w); eexists; split; eassumption.
  - left. split; reflexivity.
  - left. destruct (i <? _); split; reflexivity.
Qed.

Lemma mainloop_invariant (P : Picker.window -> Prop)
  (stock_list : list ticker) :
  (forall ev w, P w -> P (Picker.handle stock_list ev w)) ->
  forall events w, P w -> P (Picker.mainloop stock_list events w).
Proof.
  intros Hstep events.
  induction events as [|ev rest IH]; intros w Hw; cbn [Picker.mainloop].
  - exact Hw.
  - destruct (Picker.destroyed w); [exact Hw|].
    apply IH, Hstep, Hw.
Qed.

(** X13: the ticker [stock_search] returns, when it returns one, is not
    empty, is in upper case and has no space around it, whatever the stock
    list and whatever the user did in the window. *)
Theorem stock_search_ticker_normalised (use_cache : bool) (w : World.env)
  (events : list Picker.event) (s : string) :
  snd (Picker.stock_search use_cache w events) = Ok (Some s) ->
  Picker.normalised s.
Proof.
  unfold Picker.stock_search. cbn [snd].
  destruct (World.returned (World.get_stock_list use_cache w))
    as [stock_list|e]; [|discriminate].
  intros H. injection H as H.
  revert s H.
  apply (mainloop_invariant
           (fun win => forall s, Picker.selected_ticker win = Some s ->
                                 Picker.normalised s) stock_list).
  - intros ev win Hwin s Hs.
    destruct (handle_outcome stock_list ev win) as [[E _]|(_ & _ & x & Hx & E)].
    + rewrite E in Hs. exact (Hwin s Hs).
    + rewrite E in Hs. injection Hs as <-.
      split; [exact Hx | apply upper_strip_normal].
  - intros s H. discriminate H.
Qed.

Lemma stock_search_ticker_normalised_witness : Picker.normalised "TSLA".
Proof.
  apply (stock_search_ticker_normalised false
           (World.mkEnv 1728003600 0 None
              (Some ("Symbol|Security Name" ++ PyStr.LF ++ "A|Agilent")%string)
              World.Written)
           [Picker.Edit "  tsla "; Picker.Return] "TSLA").
  reflexivity.
Defined.

(** X14: the window is destroyed exactly when a ticker has been stored, and
    no ticker is stored unless Return is pressed (or the button) or a row is
    double-clicked: closing the window otherwise makes [stock_search]
    return [None]. *)
Theorem ticker_stored_iff_destroyed (stock_list : list ticker)
  (events : list Picker.event) :
  let w := Picker.mainloop stock_list events Picker.init in
  (Picker.destroyed w = true <-> exists s, Picker.selected_ticker w = Some s)
  /\ (Forall (fun ev => ev <> Picker.Return /\ ev <> Picker.DoubleClick)
             events ->
      Picker.selected_ticker w = None /\ Picker.destroyed w = false).
Proof.
  cbv zeta. split.
  - apply (mainloop_invariant
             (fun win => Picker.destroyed win = true
                         <-> exists s, Picker.selected_ticker win = Some s)
             stock_list).
    + intros ev win Hwin.
      destruct (handle_outcome stock_list ev win)
        as [[E1 E2]|(_ & Hd & x & _ & E)].
      * rewrite E1, E2. exact Hwin.
      * rewrite Hd, E. split; [intros _; eexists; reflexivity | reflexivity].
    + simpl. split; [discriminate | intros [s H]; discriminate].
  - intros Hev.
    assert (H : forall w,
               Picker.selected_ticker w = None /\ Picker.destroyed w = false ->
               let w' := Picker.mainloop stock_list events w in
               Picker.selected_ticker w' = None
               /\ Picker.destroyed w' = false).
    { induction Hev as [|ev rest [Hr Hdc] Hrest IH]; intros w [Hs Hd];
        cbn [Picker.mainloop].
      - split; assumption.
      - rewrite Hd. apply IH.
        destruct (handle_outcome stock_list ev w)
          as [[E1 E2]|([E|E] & _)]; [|contradiction|contradiction].
        rewrite E1, E2. split; assumption. }
    apply H. split; reflexivity.
Qed.

Lemma ticker_stored_iff_destroyed_witness :
  Picker.selected_ticker
    (Picker.mainloop [("AAPL", "Apple Inc.")]
       [Picker.Edit "aapl"; Picker.KeyRelease; Picker.Click (Some 0%Z)]
       Picker.init)
  = None.
Proof.
  apply (proj2 (ticker_stored_iff_destroyed [("AAPL", "Apple Inc.")]
                  [Picker.Edit "aapl"; Picker.KeyRelease;
                   Picker.Click (Some 0%Z)])).
  repeat constructor; discriminate.
Defined.

(** ** Rows with the same symbol *)

Lemma same_symbol_key (s : string) (r : ticker) :
  same_key fst String.leb s r = String.eqb (fst r) s.
Proof.
  unfold same_key.
  destruct (String.eqb_spec (fst r) s) as [E|E].
  - rewrite E, string_leb_refl. reflexivity.
  - destruct (String.leb (fst r) s) eqn:H1; [|reflexivity].
    destruct (String.leb s (fst r)) eqn:H2; [|reflexivity].
    exfalso. apply E. apply String.leb_antisym; assumption.
Qed.

(** X15: the parser does not merge or reorder the rows of one symbol: the
    records with a given symbol are in its output as often as accepted rows
    have that symbol, in the order of those rows. *)
Theorem parse_keeps_row_order (raw header : string) (rows : list string)
  (out : list ticker) (s : string) :
  PyStr.splitlines (PyStr.strip raw) = header :: rows ->
  Parser.parse raw = Ok out ->
  let c := Parser.locate_columns header in
  filter (fun r => String.eqb (fst r) s) out
  = filter (fun r => String.eqb (fst r) s)
           (map (Spec.record_of c) (filter (Spec.accepted c) rows)).
Proof.
  intros Hl Hp c.
  rewrite (parse_unfold raw header rows Hl) in Hp. fold c in Hp.
  assert (E : out = Parser.sort_by_symbol
                      (map (Spec.record_of c) (filter (Spec.accepted c) rows))).
  { destruct (Parser.sort_by_symbol _); [discriminate|].
    injection Hp as <-. reflexivity. }
  rewrite E.
  rewrite <- (filter_ext _ _ (same_symbol_key s)).
  rewrite <- (filter_ext _ _ (same_symbol_key s)).
  apply (sorted_stable fst String.leb string_leb_trans).
Qed.

Lemma parse_keeps_row_order_witness :
  filter (fun r : ticker => String.eqb (fst r) "A")
    [("A", "Second listing"); ("A", "First listing"); ("B", "Barnes")]
  = filter (fun r : ticker => String.eqb (fst r) "A")
      (map (Spec.record_of (Parser.locate_columns "Symbol|Security Name"))
         (filter (Spec.accepted (Parser.locate_columns "Symbol|Security Name"))
            ["B|Barnes"; "A|Second listing"; "a|First listing"])).
Proof.
  apply (parse_keeps_row_order
           ("Symbol|Security Name" ++ PyStr.LF ++ "B|Barnes" ++ PyStr.LF
            ++ "A|Second listing" ++ PyStr.LF ++ "a|First listing")%string
           "Symbol|Security Name"
           ["B|Barnes"; "A|Second listing"; "a|First listing"]
           [("A", "Second listing"); ("A", "First listing"); ("B", "Barnes")]
           "A").
  - reflexivity.
  - reflexivity.
Defined.
